(** * Reachy Mini movement controller: a shallow embedding of
    [reachy_mini_gemini_app/movements.py] and its specification.

    The coroutines of [MovementController] are embedded as programs of a
    small monad that records every observable effect (log lines, device
    calls and their returns, sleeps) in a trace and that can raise Python
    exceptions.

    Conventions of the model:
    - a number is a Python [int] or [float]; a float is the rational it
      denotes (rounding, NaN and infinities are not modelled);
    - arguments have the types of their annotations ([str], [float],
      [int]); the repeat count of [nod_yes] and [shake_no], which Python
      does not check, is also embedded as any number ([nod_yes_untyped],
      [shake_no_untyped]);
    - [numpy.radians] is the exact product with the double nearest to
      pi/180: the rounding of the product is not modelled, nor an [int] of
      more than 64 bits, which numpy does not convert;
    - [await] runs the awaited coroutine to completion, so a device call
      dispatched with [asyncio.to_thread] appears in the trace as the call
      followed by its return; other tasks of the event loop and
      cancellation are not modelled;
    - the device may fail at any call, depending on everything that
      happened before; what it raises is an [Exception]. *)

From Stdlib Require Import QArith Qminmax Lqa ZArith Lia.
From stdpp Require Import base strings gmap list pretty.

Local Open Scope Z_scope.

(** ** Python numbers *)

(** A Python number is an [int] or a [float]. *)
Inductive pynum : Type :=
  | PyInt (z : Z)
  | PyFloat (q : Q).

Definition num_val (x : pynum) : Q :=
  match x with
  | PyInt z => inject_Z z
  | PyFloat q => q
  end.

Definition Qltb (x y : Q) : bool :=
  Qnum x * QDen y <? Qnum y * QDen x.

(** [a < b] on Python numbers. *)
Definition py_lt (a b : pynum) : bool := Qltb (num_val a) (num_val b).

(** The builtin [min(a, b)]: the first argument is kept unless the second
    is strictly smaller. *)
Definition py_min (a b : pynum) : pynum := if py_lt b a then b else a.

(** The builtin [max(a, b)]: the first argument is kept unless the second
    is strictly greater. *)
Definition py_max (a b : pynum) : pynum := if py_lt a b then b else a.

(** Unary minus. *)
Definition py_neg (x : pynum) : pynum :=
  match x with
  | PyInt z => PyInt (- z)
  | PyFloat q => PyFloat (- q)
  end.

(** The Safety Clamp: the expression [max(lo, min(hi, x))] that
    [move_head_precise], [move_antennas] and [tilt_head] apply. *)
Definition clamp (lo hi x : pynum) : pynum := py_max lo (py_min hi x).

(** The double nearest to pi/180, the factor of [numpy.radians]. *)
Definition DEG2RAD : Q := 5030569068109113 # 288230376151711744.

(** [np.radians(x)]: the product with pi/180, as a float.  The product is
    exact here, where numpy rounds it to the nearest double; an [int] that
    does not fit in 64 bits, which numpy does not convert, is treated like
    any other. *)
Definition np_radians (x : pynum) : pynum := PyFloat (num_val x * DEG2RAD).

(** The documented axes of the Safety Clamp and their bounds.  The code
    clamps roll, pitch and yaw in degrees ([move_head_precise]) and the
    antenna angle in radians ([move_antennas]); the range in degrees of the
    antenna angle is the one the docstring of [move_antennas] gives. *)
Inductive axis : Type :=
  | HeadRoll
  | HeadPitch
  | HeadYaw
  | AntennaDegrees
  | AntennaRadians.

Definition axis_min (a : axis) : pynum :=
  match a with
  | HeadRoll => PyInt (-30)
  | HeadPitch => PyInt (-30)
  | HeadYaw => PyInt (-45)
  | AntennaDegrees => PyInt (-90)
  | AntennaRadians => PyFloat (-1.57)
  end.

Definition axis_max (a : axis) : pynum :=
  match a with
  | HeadRoll => PyInt 30
  | HeadPitch => PyInt 30
  | HeadYaw => PyInt 45
  | AntennaDegrees => PyInt 90
  | AntennaRadians => PyFloat 1.57
  end.

Definition clamp_axis (a : axis) (x : pynum) : pynum :=
  clamp (axis_min a) (axis_max a) x.

(** ** The device and the trace of effects *)

(** [create_head_pose(roll=.., pitch=.., yaw=.., degrees=True)] builds the
    device-ready target; it is represented by the angles (in degrees) it
    was built from. *)
Record HeadPose : Type := create_head_pose {
  roll : pynum;
  pitch : pynum;
  yaw : pynum;
}.

(** What the controller asks of the device: [robot.goto_target(head=..,
    antennas=.., duration=..)], [robot.wake_up()] and [robot.goto_sleep()]. *)
Inductive device_request : Type :=
  | GotoTarget (head : option HeadPose) (antennas : option (list pynum))
               (duration : pynum)
  | WakeUp
  | GotoSleep.

(** Python exceptions (all of them subclasses of [Exception]). *)
Inductive exn : Type :=
  | KeyError (key : string)
  | TypeError (msg : string)
  | DeviceError (msg : string).

(** [str(e)] *)
Definition exn_str (e : exn) : string :=
  match e with
  | KeyError k => "'" +:+ k +:+ "'"
  | TypeError m => m
  | DeviceError m => m
  end.

Inductive level : Type := INFO | WARNING | ERROR.

(** Observable effects, in the order they happen: a line handed to the
    logger, a device call dispatched by [asyncio.to_thread], the return of
    that call to the awaiting coroutine ([Some e] when it raised [e]), and
    [asyncio.sleep]. *)
Inductive event : Type :=
  | Log (lvl : level) (msg : string)
  | Call (rq : device_request)
  | Return (r : option exn)
  | Sleep (d : pynum).

(** The device: given everything that happened so far and the request, the
    call returns normally ([None]) or raises. *)
Definition Robot : Type := list event -> device_request -> option exn.

Inductive result (A : Type) : Type :=
  | Ok (a : A)
  | Raise (e : exn).
Arguments Ok {A} a.
Arguments Raise {A} e.

(** A coroutine awaited to completion: from the history so far to its
    outcome and the events it adds. *)
Definition M (A : Type) : Type := list event -> result A * list event.

Definition ret {A} (a : A) : M A := fun _ => (Ok a, []).

Definition bind {A B} (m : M A) (k : A -> M B) : M B :=
  fun h =>
    match m h with
    | (Ok a, e1) => let (r, e2) := k a (h ++ e1) in (r, e1 ++ e2)
    | (Raise e, e1) => (Raise e, e1)
    end.

Definition raise {A} (e : exn) : M A := fun _ => (Raise e, []).

(** [try: body  except Exception as e: handler(e)] *)
Definition try_except {A} (body : M A) (handler : exn -> M A) : M A :=
  fun h =>
    match body h with
    | (Ok a, e1) => (Ok a, e1)
    | (Raise e, e1) => let (r, e2) := handler e (h ++ e1) in (r, e1 ++ e2)
    end.

#[global] Instance M_ret : MRet M := @ret.
#[global] Instance M_bind : MBind M := fun A B k m => bind m k.

Definition emit (ev : event) : M unit := fun _ => (Ok tt, [ev]).

(** [logger.info], [logger.warning], [logger.error] *)
Definition log (lvl : level) (msg : string) : M unit := emit (Log lvl msg).

(** [await asyncio.sleep(d)] *)
Definition sleep (d : pynum) : M unit := emit (Sleep d).

(** [for _ in range(n): body] *)
Fixpoint for_range (n : nat) (body : M unit) : M unit :=
  match n with
  | O => ret tt
  | S k => body;; for_range k body
  end.

(** [range(n)] at the head of a [for] loop, as the number of iterations:
    an [int] that is negative gives none, and a [float] raises
    [TypeError]. *)
Definition py_range (n : pynum) : M nat :=
  match n with
  | PyInt z => ret (Z.to_nat z)
  | PyFloat _ => raise (TypeError "'float' object cannot be interpreted as an integer")
  end.

(** [d[k]] on a dict: [KeyError] when the key is absent. *)
Definition getitem {V} (d : gmap string V) (k : string) : M V :=
  match d !! k with
  | Some v => ret v
  | None => raise (KeyError k)
  end.

Definition outcome {A} (x : result A * list event) : result A := fst x.
Definition events {A} (x : result A * list event) : list event := snd x.

(** The device calls of a trace, in order. *)
Definition device_calls (evs : list event) : list device_request :=
  omap (fun ev => match ev with Call rq => Some rq | _ => None end) evs.

(** The warnings of a trace. *)
Definition warnings (evs : list event) : list string :=
  omap (fun ev => match ev with Log WARNING m => Some m | _ => None end) evs.

(** The errors logged in a trace. *)
Definition errors (evs : list event) : list string :=
  omap (fun ev => match ev with Log ERROR m => Some m | _ => None end) evs.

Definition is_log (ev : event) : bool :=
  match ev with Log _ _ => true | _ => false end.

(** A trace without its log lines. *)
Fixpoint skeleton (evs : list event) : list event :=
  match evs with
  | [] => []
  | ev :: rest => if is_log ev then skeleton rest else ev :: skeleton rest
  end.

(** The seconds an event asks for: the duration given to the device, or
    the length of a pause. *)
Definition event_seconds (ev : event) : Q :=
  match ev with
  | Call (GotoTarget _ _ duration) => num_val duration
  | Sleep d => num_val d
  | _ => 0%Q
  end.

(** The nominal length of a trace: its durations and pauses added up. *)
Definition commanded_seconds (evs : list event) : Q :=
  foldr (fun ev total => (event_seconds ev + total)%Q) 0%Q evs.

(** ** Settings: [reachy_mini_gemini_app/config.py] *)

Module Config.

(** The values a settings dict holds: what [json.load] returns ([None],
    [bool], numbers, [str], lists and nested dicts). *)
#[warnings="-register-all"]
Inductive json : Type :=
  | JNull
  | JBool (b : bool)
  | JNum (n : pynum)
  | JStr (s : string)
  | JArr (items : list json)
  | JObj (fields : list (string * json)).

(** [bool(v)] *)
Definition truthy (v : json) : bool :=
  match v with
  | JNull => false
  | JBool b => b
  | JNum n => negb (Qeq_bool (num_val n) 0)
  | JStr s => negb (String.eqb s "")
  | JArr items => negb (bool_decide (length items = 0%nat))
  | JObj fields => negb (bool_decide (length fields = 0%nat))
  end.

(** [v is None] *)
Definition is_none (v : json) : bool :=
  match v with JNull => true | _ => false end.

(** The result of [os.environ.get] when it is truthy: set and not empty. *)
Definition env_value (env_api_key : option string) : option string :=
  match env_api_key with
  | Some key => if String.eqb key "" then None else Some key
  | None => None
  end.

Definition DEFAULT_SETTINGS : gmap string json :=
  list_to_map
    [ ("api_key", JNull);
      ("robot_audio", JBool false);
      ("use_camera", JBool true);
      ("holiday_cheer", JBool false);
      ("mic_gain", JNum (PyFloat 3.0));
      ("chunk_size", JNum (PyInt 512));
      ("send_queue_size", JNum (PyInt 5));
      ("recv_queue_size", JNum (PyInt 8));
      ("camera_fps", JNum (PyFloat 1.0));
      ("jpeg_quality", JNum (PyInt 50));
      ("camera_width", JNum (PyInt 640)) ].

(** The settings file as the code sees it: [CONFIG_FILE.exists()] is
    false; or the file exists and opening or parsing it raises [IOError]
    or [json.JSONDecodeError] (with the text of the exception); or
    [json.load] returns a dict.  These are the states [save_settings]
    leaves the file in.  Two other states are outside the model: a file
    that is not valid UTF-8, where [json.load] raises [UnicodeDecodeError],
    which the [except] clause does not catch; and a file that parses to a
    value that is no dict (a list, a string, a number, [null]), where the
    membership test, the [del] and [settings.update] do what they do on
    that value. *)
Inductive file_state : Type :=
  | Missing
  | Unreadable (error : string)
  | Holds (contents : gmap string json).

(** The disk: the settings file, and whether creating the directory or
    writing the file raises [IOError] (with the text of the exception and
    the state the file is left in). *)
Record disk : Type := {
  file : file_state;
  write_failure : option (string * file_state);
}.

Section WithPaths.

(** [str(CONFIG_FILE)] *)
Variable CONFIG_FILE : string.

(** [load_settings()]: the settings and the lines printed. *)
Definition load_settings (env_api_key : option string) (f : file_state)
    : gmap string json * list string :=
  let settings := DEFAULT_SETTINGS in
  let settings :=
    match env_value env_api_key with
    | Some key => <["api_key" := JStr key]> settings
    | None => settings
    end in
  match f with
  | Missing => (settings, [])
  | Unreadable e =>
      (settings,
       ["Warning: Failed to load settings from " +:+ CONFIG_FILE +:+ ": " +:+ e])
  | Holds file_settings =>
      let file_settings :=
        match env_value env_api_key with
        | Some _ =>
            if bool_decide (is_Some (file_settings !! "api_key"))
            then delete "api_key" file_settings
            else file_settings
        | None => file_settings
        end in
      (file_settings ∪ settings, [])
  end.

(** [save_settings(settings)]: the returned flag, the file afterwards and
    the lines printed. *)
Definition save_settings (settings : gmap string json) (d : disk)
    : bool * file_state * list string :=
  let existing :=
    match file d with
    | Holds contents => contents
    | Missing | Unreadable _ => ∅
    end in
  let existing := settings ∪ existing in
  match write_failure d with
  | Some (e, after) => (false, after, ["Error saving settings: " +:+ e])
  | None => (true, Holds existing, [])
  end.

(** [get_api_key()] *)
Definition get_api_key (env_api_key : option string) (f : file_state)
    : json * list string :=
  match env_value env_api_key with
  | Some key => (JStr key, [])
  | None =>
      let '(settings, out) := load_settings env_api_key f in
      (default JNull (settings !! "api_key"), out)
  end.

(** [get_settings_for_api()] *)
Definition get_settings_for_api (env_api_key : option string) (f : file_state)
    : gmap string json * list string :=
  let '(settings, out) := load_settings env_api_key f in
  (list_to_map
     [ ("api_key_set", JBool (truthy (default JNull (settings !! "api_key"))));
       ("robot_audio", default (JBool false) (settings !! "robot_audio"));
       ("use_camera", default (JBool true) (settings !! "use_camera"));
       ("holiday_cheer", default (JBool false) (settings !! "holiday_cheer"));
       ("mic_gain", default (JNum (PyFloat 3.0)) (settings !! "mic_gain"));
       ("chunk_size", default (JNum (PyInt 512)) (settings !! "chunk_size"));
       ("send_queue_size", default (JNum (PyInt 5)) (settings !! "send_queue_size"));
       ("recv_queue_size", default (JNum (PyInt 8)) (settings !! "recv_queue_size"));
       ("camera_fps", default (JNum (PyFloat 1.0)) (settings !! "camera_fps"));
       ("jpeg_quality", default (JNum (PyInt 50)) (settings !! "jpeg_quality"));
       ("camera_width", default (JNum (PyInt 640)) (settings !! "camera_width")) ],
   out).

End WithPaths.

End Config.

(** ** The settings page: [reachy_mini_gemini_app/web_server.py] *)

Module WebServer.

(** What [_handle_post_settings] gets out of a request: reading the
    [Content-Length] header or the body, or decoding it, raises (with the
    text of the exception); [json.loads] raises [JSONDecodeError]; it
    returns a value that is no dict, so that [.items()] raises
    [AttributeError] (with its text); or it returns a dict. *)
Inductive post_body : Type :=
  | BodyFailed (error : string)
  | InvalidJson
  | NotADict (error : string)
  | Dict (new_settings : gmap string Config.json).

(** What the handler sends: [_send_json(data)] or [send_error(code,
    message)]; or the request is left to the static file handler. *)
Inductive response : Type :=
  | SendJson (data : gmap string Config.json)
  | SendError (code : Z) (message : string)
  | StaticFile.

Record handled : Type := {
  sent : response;
  file_after : Config.file_state;
  logged_errors : list string;
  printed : list string;
}.

Section Handler.

Variable CONFIG_FILE : string.

(** [os.environ.get("GOOGLE_API_KEY")] *)
Variable env_api_key : option string.

Definition _handle_get_settings (d : Config.disk) : handled :=
  let '(settings, out) := Config.get_settings_for_api CONFIG_FILE env_api_key (Config.file d) in
  {| sent := SendJson settings; file_after := Config.file d;
     logged_errors := []; printed := out |}.

Definition _handle_post_settings (body : post_body) (d : Config.disk) : handled :=
  match body with
  | InvalidJson =>
      {| sent := SendError 400 "Invalid JSON"; file_after := Config.file d;
         logged_errors := []; printed := [] |}
  | BodyFailed e | NotADict e =>
      {| sent := SendError 500 e; file_after := Config.file d;
         logged_errors := ["Error saving settings: " +:+ e]; printed := [] |}
  | Dict new_settings =>
      let new_settings := filter (fun kv => Config.is_none kv.2 = false) new_settings in
      let '(saved, f, out) := Config.save_settings new_settings d in
      if saved
      then {| sent := SendJson {[ "success" := Config.JBool true ]}; file_after := f;
              logged_errors := []; printed := out |}
      else {| sent := SendError 500 "Failed to save settings"; file_after := f;
              logged_errors := []; printed := out |}
  end.

(** [do_GET], given [urlparse(self.path).path]. *)
Definition do_GET (path : string) (d : Config.disk) : handled :=
  if decide (path = "/api/settings") then _handle_get_settings d
  else if decide (path = "/api/health")
  then {| sent := SendJson {[ "status" := Config.JStr "ok" ]}; file_after := Config.file d;
          logged_errors := []; printed := [] |}
  else {| sent := StaticFile; file_after := Config.file d;
          logged_errors := []; printed := [] |}.

(** [do_POST], given [urlparse(self.path).path]. *)
Definition do_POST (path : string) (body : post_body) (d : Config.disk) : handled :=
  if decide (path = "/api/settings") then _handle_post_settings body d
  else {| sent := SendError 404 "Not Found"; file_after := Config.file d;
          logged_errors := []; printed := [] |}.

End Handler.

(** *** The server and its global instance *)

Inductive server_event : Type :=
  | Bind (port : Z) (error : option string)
  | ThreadStart
  | Shutdown
  | LogInfo (msg : string)
  | LogError (msg : string).

(** [SettingsServer]: its port, and whether [self.server] is set. *)
Record SettingsServer : Type := {
  port : Z;
  server : bool;
}.

(** A call returns a value or raises (with the text of the exception). *)
Inductive returned (A : Type) : Type :=
  | Returns (a : A)
  | Raises (error : string).
Arguments Returns {A} a.
Arguments Raises {A} error.

Section Server.

(** [HTTPServer(("0.0.0.0", port), SettingsHandler)] for a port from 0 to
    65535: after what happened so far, binding the port succeeds or raises
    [OSError]. *)
Variable bind_error : list server_event -> Z -> option string.

Definition get_url (self : SettingsServer) : string :=
  "http://0.0.0.0:" +:+ pretty (port self).

(** What [socket.bind] raises for a port that is no port. *)
Definition port_overflow : string := "bind(): port must be 0-65535.".

(** [SettingsServer.start]: what it returns, the server afterwards and the
    events.  For a port outside 0..65535 the constructor raises
    [OverflowError], which is no [OSError]: it passes the [except] clause
    and nothing is logged. *)
Definition start (self : SettingsServer) (h : list server_event)
    : returned string * SettingsServer * list server_event :=
  if server self then (Returns (get_url self), self, [])
  else if bool_decide (0 <= port self <= 65535) then
    match bind_error h (port self) with
    | None =>
        let self := {| port := port self; server := true |} in
        (Returns (get_url self), self,
         [ Bind (port self) None; ThreadStart;
           LogInfo ("Settings server started at " +:+ get_url self) ])
    | Some e =>
        (Raises e, self,
         [ Bind (port self) (Some e);
           LogError ("Failed to start settings server on port " +:+ pretty (port self)
                     +:+ ": " +:+ e) ])
    end
  else (Raises port_overflow, self, [ Bind (port self) (Some port_overflow) ]).

(** [SettingsServer.stop] *)
Definition stop (self : SettingsServer) : SettingsServer * list server_event :=
  if server self
  then ({| port := port self; server := false |},
        [ Shutdown; LogInfo "Settings server stopped" ])
  else (self, []).

(** [start_settings_server(port)] on the global [_server]. *)
Definition start_settings_server (p : Z) (_server : option SettingsServer)
    (h : list server_event)
    : returned string * option SettingsServer * list server_event :=
  let self :=
    match _server with
    | None => {| port := p; server := false |}
    | Some self => self
    end in
  let '(r, self, evs) := start self h in
  (r, Some self, evs).

(** [stop_settings_server()] on the global [_server]. *)
Definition stop_settings_server (_server : option SettingsServer)
    : option SettingsServer * list server_event :=
  match _server with
  | Some self => let '(_, evs) := stop self in (None, evs)
  | None => (None, [])
  end.

(** The ports a trace tried to bind. *)
Definition bound_ports (evs : list server_event) : list Z :=
  omap (fun ev => match ev with Bind p _ => Some p | _ => None end) evs.

End Server.

End WebServer.

(** ** Start-up: [reachy_mini_gemini_app/main.py] *)

Module Main.

(** The arguments [create_robot] reads. *)
Record Args : Type := {
  wireless : bool;
  no_camera : bool;
  robot_audio : bool;
}.

(** A call [ReachyMini(media_backend=.., localhost_only=..)];
    [localhost_only] is [None] where the call does not pass it. *)
Record ReachyMiniCall : Type := {
  media_backend : string;
  localhost_only : option bool;
}.

(** What the constructor raises: [ModuleNotFoundError] or another
    [Exception], with its text. *)
Inductive ctor_exn : Type :=
  | ModuleNotFoundError (msg : string)
  | OtherException (msg : string).

Inductive main_event : Type :=
  | Construct (call : ReachyMiniCall) (error : option ctor_exn)
  | LogInfo (msg : string)
  | LogWarning (msg : string).

(** [create_robot] returns the robot of a constructor call, or the
    exception of a call made outside a [try] propagates. *)
Inductive created : Type :=
  | Created (call : ReachyMiniCall)
  | Propagated (e : ctor_exn).

Section CreateRobot.

(** The SDK: after what happened so far, a constructor call succeeds or
    raises. *)
Variable sdk : list main_event -> ReachyMiniCall -> option ctor_exn.

(** [return ReachyMini(...)] outside a [try]. *)
Definition construct (call : ReachyMiniCall) (h : list main_event)
    : created * list main_event :=
  match sdk h call with
  | None => (Created call, [Construct call None])
  | Some e => (Propagated e, [Construct call (Some e)])
  end.

(** The loop [for backend in backends: try: ... except ...: continue];
    [None] when the loop ends without a [return]. *)
Fixpoint try_backends (backends : list string) (h : list main_event)
    : option ReachyMiniCall * list main_event :=
  match backends with
  | [] => (None, [])
  | backend :: rest =>
      let info := LogInfo ("Trying " +:+ backend +:+ " backend for wireless media...") in
      let call := {| media_backend := backend; localhost_only := Some false |} in
      match sdk (h ++ [info]) call with
      | None =>
          (Some call,
           [info; Construct call None; LogInfo ("Using " +:+ backend +:+ " backend")])
      | Some e =>
          let warning :=
            match e with
            | ModuleNotFoundError msg =>
                LogWarning (backend +:+ " backend not available: " +:+ msg)
            | OtherException msg => LogWarning (backend +:+ " backend failed: " +:+ msg)
            end in
          let evs := [info; Construct call (Some e); warning] in
          let '(r, evs') := try_backends rest (h ++ evs) in
          (r, evs ++ evs')
      end
  end.

Definition create_robot (args : Args) (h : list main_event)
    : created * list main_event :=
  let need_media := robot_audio args || negb (no_camera args) in
  if negb need_media then
    construct {| media_backend := "no_media";
                 localhost_only := Some (negb (wireless args)) |} h
  else if negb (wireless args) then
    construct {| media_backend := "default"; localhost_only := None |} h
  else
    let backends := ["gstreamer"; "webrtc"; "default"] in
    match try_backends backends h with
    | (Some call, evs) => (Created call, evs)
    | (None, evs) =>
        let warnings :=
          [ LogWarning ("No wireless media backend available. "
                        +:+ "Install with: pip install reachy_mini[gstreamer]");
            LogWarning "Falling back to no_media - robot audio/camera will NOT work" ] in
        let '(r, evs') :=
          construct {| media_backend := "no_media"; localhost_only := Some false |}
            (h ++ evs ++ warnings) in
        (r, evs ++ warnings ++ evs')
    end.

(** The constructor calls of a trace, with their outcomes. *)
Definition constructor_calls (evs : list main_event)
    : list (ReachyMiniCall * option ctor_exn) :=
  omap (fun ev => match ev with Construct c r => Some (c, r) | _ => None end) evs.

Definition logged_warnings (evs : list main_event) : list string :=
  omap (fun ev => match ev with LogWarning m => Some m | _ => None end) evs.

End CreateRobot.

End Main.

(** ** Some environments *)

(** A host on which port 8042 is taken. *)
Definition port_8042_busy : list WebServer.server_event -> Z -> option string :=
  fun _ p => if decide (p = 8042) then Some "Address already in use" else None.

(** An SDK for which GStreamer is not installed, WebRTC fails and the
    other media backends work. *)
Definition sdk_without_wireless_media
    : list Main.main_event -> Main.ReachyMiniCall -> option Main.ctor_exn :=
  fun _ call =>
    if decide (Main.media_backend call = "gstreamer")
    then Some (Main.ModuleNotFoundError "No module named 'gi'")
    else if decide (Main.media_backend call = "webrtc")
    then Some (Main.OtherException "signalling server unreachable")
    else None.

(** A settings file that holds an API key and a microphone gain. *)
Definition sample_settings_file : Config.file_state :=
  Config.Holds
    (list_to_map [ ("api_key", Config.JStr "key-of-the-file");
                   ("mic_gain", Config.JNum (PyFloat 5.0)) ]).

(** ** Some devices *)

(** A device on which every call succeeds. *)
Definition robot_ok : Robot := fun _ _ => None.

(** A device that is not reachable: every call raises. *)
Definition robot_down : Robot := fun _ _ => Some (DeviceError "connection lost").

(** A device on which exactly the second call of a session fails. *)
Definition robot_second_fails : Robot :=
  fun h _ =>
    if decide (length (device_calls h) = 1%nat)
    then Some (DeviceError "actuator fault")
    else None.

(** A sample rendering of floats, as a fraction. *)
Definition ratio_repr (q : Q) : string :=
  pretty (Qnum q) +:+ "/" +:+ pretty (Z.pos (Qden q)).

(** ** The controller *)

Section MovementController.

(** [self.robot] *)
Variable robot : Robot.

(** How an f-string renders a float. *)
Variable float_repr : Q -> string.

(** [f"{x}"] for a number. *)
Definition py_str (x : pynum) : string :=
  match x with
  | PyInt z => pretty z
  | PyFloat q => float_repr q
  end.

(** [await asyncio.to_thread(f, ...)] for a method [f] of the robot: the
    call is dispatched, the coroutine resumes when it returns, and an
    exception of the call is raised in the coroutine. *)
Definition to_thread (rq : device_request) : M unit :=
  fun h =>
    let r := robot h rq in
    (match r with None => Ok tt | Some e => Raise e end, [Call rq; Return r]).

Definition _goto_target (head : option HeadPose) (antennas : option (list pynum))
    (duration : pynum) : M unit :=
  try_except
    (to_thread (GotoTarget head antennas duration))
    (fun e => log ERROR ("Motion error: " +:+ exn_str e)).

Definition poses : gmap string (pynum * pynum * pynum) :=
  list_to_map
    [ ("left", (PyInt 0, PyInt 0, PyInt 25));
      ("right", (PyInt 0, PyInt 0, PyInt (-25)));
      ("up", (PyInt 0, PyInt (-20), PyInt 0));
      ("down", (PyInt 0, PyInt 20, PyInt 0));
      ("center", (PyInt 0, PyInt 0, PyInt 0)) ].

Definition move_head (direction : string) (duration : pynum) : M string :=
  direction ← match poses !! direction with
              | None =>
                  log WARNING ("Unknown direction: " +:+ direction +:+ ", using center");;
                  mret "center"
              | Some _ => mret direction
              end;
  p ← getitem poses direction;
  let '(roll, pitch, yaw) := p in
  let pose := create_head_pose roll pitch yaw in
  log INFO ("Moving head " +:+ direction);;
  _goto_target (Some pose) None duration;;
  mret ("Moved head " +:+ direction).

Definition move_head_precise (roll pitch yaw duration : pynum) : M string :=
  let roll := py_max (PyInt (-30)) (py_min (PyInt 30) roll) in
  let pitch := py_max (PyInt (-30)) (py_min (PyInt 30) pitch) in
  let yaw := py_max (PyInt (-45)) (py_min (PyInt 45) yaw) in
  let pose := create_head_pose roll pitch yaw in
  log INFO ("Moving head to roll=" +:+ py_str roll +:+ ", pitch=" +:+ py_str pitch
            +:+ ", yaw=" +:+ py_str yaw);;
  _goto_target (Some pose) None duration;;
  mret ("Moved head to roll=" +:+ py_str roll +:+ ", pitch=" +:+ py_str pitch
        +:+ ", yaw=" +:+ py_str yaw).

Definition move_antennas (right_angle left_angle duration : pynum) : M string :=
  let right_rad := py_max (PyFloat (-1.57)) (py_min (PyFloat 1.57) (np_radians right_angle)) in
  let left_rad := py_max (PyFloat (-1.57)) (py_min (PyFloat 1.57) (np_radians left_angle)) in
  log INFO ("Moving antennas: right=" +:+ py_str right_angle +:+ ", left="
            +:+ py_str left_angle);;
  _goto_target None (Some [right_rad; left_rad]) duration;;
  mret ("Moved antennas to right=" +:+ py_str right_angle +:+ ", left="
        +:+ py_str left_angle +:+ " degrees").

Definition expressions : gmap string (list pynum) :=
  list_to_map
    [ ("neutral", [PyInt 0; PyInt 0]);
      ("alert", [PyFloat 0.8; PyFloat (-0.8)]);
      ("droopy", [PyFloat (-1.0); PyFloat 1.0]);
      ("asymmetric", [PyFloat 0.5; PyFloat 0.2]);
      ("perky", [PyFloat 1.0; PyFloat (-1.0)]) ].

Definition antenna_expression (expression : string) : M string :=
  let expression := match expressions !! expression with
                    | None => "neutral"
                    | Some _ => expression
                    end in
  antennas ← getitem expressions expression;
  log INFO ("Setting antenna expression: " +:+ expression);;
  _goto_target None (Some antennas) (PyFloat 0.3);;
  mret ("Set antennas to " +:+ expression).

Definition nod_yes (times : Z) : M string :=
  let times := Z.max 1 (Z.min 5 times) in
  log INFO ("Nodding yes " +:+ pretty times +:+ " times");;
  for_range (Z.to_nat times)
    (_goto_target (Some (create_head_pose (PyInt 0) (PyInt 15) (PyInt 0))) None (PyFloat 0.15);;
     sleep (PyFloat 0.1);;
     _goto_target (Some (create_head_pose (PyInt 0) (PyInt (-10)) (PyInt 0))) None (PyFloat 0.15);;
     sleep (PyFloat 0.1));;
  _goto_target (Some (create_head_pose (PyInt 0) (PyInt 0) (PyInt 0))) None (PyFloat 0.2);;
  mret ("Nodded yes " +:+ pretty times +:+ " times").

Definition shake_no (times : Z) : M string :=
  let times := Z.max 1 (Z.min 5 times) in
  log INFO ("Shaking no " +:+ pretty times +:+ " times");;
  for_range (Z.to_nat times)
    (_goto_target (Some (create_head_pose (PyInt 0) (PyInt 0) (PyInt 20))) None (PyFloat 0.15);;
     sleep (PyFloat 0.05);;
     _goto_target (Some (create_head_pose (PyInt 0) (PyInt 0) (PyInt (-20)))) None (PyFloat 0.15);;
     sleep (PyFloat 0.05));;
  _goto_target (Some (create_head_pose (PyInt 0) (PyInt 0) (PyInt 0))) None (PyFloat 0.2);;
  mret ("Shook head no " +:+ pretty times +:+ " times").

Definition tilt_head (direction : string) (angle : pynum) : M string :=
  let angle := py_max (PyInt 5) (py_min (PyInt 30) angle) in
  let roll := if decide (direction = "left") then angle else py_neg angle in
  let pose := create_head_pose roll (PyInt 0) (PyInt 0) in
  log INFO ("Tilting head " +:+ direction +:+ " by " +:+ py_str angle +:+ " degrees");;
  _goto_target (Some pose) None (PyFloat 0.4);;
  mret ("Tilted head " +:+ direction).

Definition look_at_camera : M string :=
  let pose := create_head_pose (PyInt 0) (PyInt 0) (PyInt 0) in
  _goto_target (Some pose) (Some [PyInt 0; PyInt 0]) (PyFloat 0.3);;
  mret "Looking at camera".

Definition wake_up : M string :=
  log INFO "Performing wake up animation";;
  try_except
    (to_thread WakeUp;; mret "Woke up and ready!")
    (fun e =>
       log ERROR ("Wake up error: " +:+ exn_str e);;
       mret ("Wake up failed: " +:+ exn_str e)).

Definition go_to_sleep : M string :=
  log INFO "Going to sleep";;
  try_except
    (to_thread GotoSleep;; mret "Going to sleep...")
    (fun e =>
       log ERROR ("Sleep error: " +:+ exn_str e);;
       mret ("Sleep failed: " +:+ exn_str e)).

Definition _happy_expression : M unit :=
  _goto_target (Some (create_head_pose (PyInt 15) (PyInt 0) (PyInt 0)))
    (Some [PyFloat 0.5; PyFloat (-0.5)]) (PyFloat 0.2);;
  sleep (PyFloat 0.15);;
  _goto_target (Some (create_head_pose (PyInt (-15)) (PyInt 0) (PyInt 0)))
    (Some [PyFloat (-0.5); PyFloat 0.5]) (PyFloat 0.2);;
  sleep (PyFloat 0.15);;
  _goto_target (Some (create_head_pose (PyInt 0) (PyInt 0) (PyInt 0)))
    (Some [PyFloat 0.3; PyFloat (-0.3)]) (PyFloat 0.2).

Definition _sad_expression : M unit :=
  _goto_target (Some (create_head_pose (PyInt 0) (PyInt 25) (PyInt 0)))
    (Some [PyFloat (-1.2); PyFloat 1.2]) (PyFloat 0.8);;
  sleep (PyFloat 0.8);;
  _goto_target (Some (create_head_pose (PyInt 0) (PyInt 5) (PyInt 0)))
    (Some [PyFloat (-0.3); PyFloat 0.3]) (PyFloat 0.5).

Definition _surprised_expression : M unit :=
  _goto_target (Some (create_head_pose (PyInt 0) (PyInt (-20)) (PyInt 0)))
    (Some [PyFloat 1.0; PyFloat (-1.0)]) (PyFloat 0.12);;
  sleep (PyFloat 0.4);;
  _goto_target (Some (create_head_pose (PyInt 0) (PyInt 0) (PyInt 0)))
    (Some [PyFloat 0.3; PyFloat (-0.3)]) (PyFloat 0.3).

Definition _curious_expression : M unit :=
  _goto_target (Some (create_head_pose (PyInt 20) (PyInt (-10)) (PyInt 0)))
    (Some [PyFloat 0.6; PyFloat 0.1]) (PyFloat 0.4);;
  sleep (PyFloat 0.5);;
  _goto_target (Some (create_head_pose (PyInt 0) (PyInt 0) (PyInt 0)))
    (Some [PyInt 0; PyInt 0]) (PyFloat 0.3).

Definition _excited_expression : M unit :=
  for_range 3
    (_goto_target (Some (create_head_pose (PyInt 0) (PyInt (-10)) (PyInt 0)))
       (Some [PyFloat 0.8; PyFloat (-0.8)]) (PyFloat 0.1);;
     sleep (PyFloat 0.08);;
     _goto_target (Some (create_head_pose (PyInt 0) (PyInt 5) (PyInt 0)))
       (Some [PyFloat (-0.2); PyFloat 0.2]) (PyFloat 0.1);;
     sleep (PyFloat 0.08));;
  _goto_target (Some (create_head_pose (PyInt 0) (PyInt 0) (PyInt 0)))
    (Some [PyFloat 0.5; PyFloat (-0.5)]) (PyFloat 0.2).

Definition _sleepy_expression : M unit :=
  _goto_target (Some (create_head_pose (PyInt 8) (PyInt 25) (PyInt 0)))
    (Some [PyFloat (-1.3); PyFloat 1.3]) (PyFloat 1.2);;
  sleep (PyFloat 0.5);;
  _goto_target (Some (create_head_pose (PyInt 8) (PyInt 30) (PyInt 0)))
    None (PyFloat 0.3);;
  sleep (PyFloat 0.3);;
  _goto_target (Some (create_head_pose (PyInt 0) (PyInt 15) (PyInt 0)))
    (Some [PyFloat (-0.8); PyFloat 0.8]) (PyFloat 0.4).

Definition _confused_expression : M unit :=
  _goto_target (Some (create_head_pose (PyInt 15) (PyInt (-5)) (PyInt 0)))
    (Some [PyFloat 0.4; PyFloat 0.6]) (PyFloat 0.3);;
  sleep (PyFloat 0.3);;
  _goto_target (Some (create_head_pose (PyInt (-15)) (PyInt (-5)) (PyInt 0)))
    (Some [PyFloat 0.6; PyFloat 0.4]) (PyFloat 0.3);;
  sleep (PyFloat 0.3);;
  _goto_target (Some (create_head_pose (PyInt 8) (PyInt 0) (PyInt 0)))
    (Some [PyFloat 0.2; PyFloat 0.4]) (PyFloat 0.25).

Definition _angry_expression : M unit :=
  _goto_target (Some (create_head_pose (PyInt 0) (PyInt 10) (PyInt 0)))
    (Some [PyFloat 0.8; PyFloat (-0.8)]) (PyFloat 0.2);;
  sleep (PyFloat 0.2);;
  _goto_target (Some (create_head_pose (PyInt 0) (PyInt 10) (PyInt 10)))
    None (PyFloat 0.1);;
  sleep (PyFloat 0.1);;
  _goto_target (Some (create_head_pose (PyInt 0) (PyInt 10) (PyInt (-10))))
    None (PyFloat 0.1);;
  sleep (PyFloat 0.1);;
  _goto_target (Some (create_head_pose (PyInt 0) (PyInt 5) (PyInt 0)))
    (Some [PyFloat 0.5; PyFloat (-0.5)]) (PyFloat 0.2).

Definition _love_expression : M unit :=
  _goto_target (Some (create_head_pose (PyInt 12) (PyInt (-8)) (PyInt 0)))
    (Some [PyFloat 0.4; PyFloat (-0.4)]) (PyFloat 0.5);;
  sleep (PyFloat 0.4);;
  _goto_target (Some (create_head_pose (PyInt (-12)) (PyInt (-8)) (PyInt 0)))
    (Some [PyFloat (-0.4); PyFloat 0.4]) (PyFloat 0.5);;
  sleep (PyFloat 0.4);;
  _goto_target (Some (create_head_pose (PyInt 0) (PyInt 0) (PyInt 0)))
    (Some [PyFloat 0.2; PyFloat (-0.2)]) (PyFloat 0.3).

Definition emotion_methods : gmap string (M unit) :=
  list_to_map
    [ ("happy", _happy_expression);
      ("sad", _sad_expression);
      ("surprised", _surprised_expression);
      ("curious", _curious_expression);
      ("excited", _excited_expression);
      ("sleepy", _sleepy_expression);
      ("confused", _confused_expression);
      ("angry", _angry_expression);
      ("love", _love_expression) ].

Definition express_emotion (emotion : string) : M string :=
  log INFO ("Expressing emotion: " +:+ emotion);;
  match emotion_methods !! emotion with
  | Some _ =>
      method ← getitem emotion_methods emotion;
      method;;
      mret ("Expressed " +:+ emotion)
  | None =>
      log WARNING ("Unknown emotion: " +:+ emotion);;
      mret ("Unknown emotion: " +:+ emotion)
  end.

Definition do_dance (style : string) : M string :=
  log INFO ("Dancing: " +:+ style);;
  (if decide (style = "silly") then
     for_range 2
       (_goto_target (Some (create_head_pose (PyInt 25) (PyInt 0) (PyInt 15)))
          (Some [PyFloat 1.0; PyInt 0]) (PyFloat 0.2);;
        sleep (PyFloat 0.15);;
        _goto_target (Some (create_head_pose (PyInt (-25)) (PyInt 0) (PyInt (-15))))
          (Some [PyInt 0; PyFloat (-1.0)]) (PyFloat 0.2);;
        sleep (PyFloat 0.15))
   else
     for_range 3
       (_goto_target (Some (create_head_pose (PyInt 15) (PyInt (-5)) (PyInt 0)))
          (Some [PyFloat 0.6; PyFloat (-0.6)]) (PyFloat 0.15);;
        sleep (PyFloat 0.1);;
        _goto_target (Some (create_head_pose (PyInt (-15)) (PyInt (-5)) (PyInt 0)))
          (Some [PyFloat (-0.6); PyFloat 0.6]) (PyFloat 0.15);;
        sleep (PyFloat 0.1)));;
  _goto_target (Some (create_head_pose (PyInt 0) (PyInt 0) (PyInt 0)))
    (Some [PyInt 0; PyInt 0]) (PyFloat 0.25);;
  mret ("Finished " +:+ style +:+ " dance").

Definition reset_position : M string :=
  let pose := create_head_pose (PyInt 0) (PyInt 0) (PyInt 0) in
  _goto_target (Some pose) (Some [PyInt 0; PyInt 0]) (PyFloat 0.5);;
  mret "Reset to neutral position".

(** *** The Command Facade as a whole *)

(** One constructor per public coroutine of [MovementController], with
    its arguments. *)
Inductive facade_call : Type :=
  | MoveHead (direction : string) (duration : pynum)
  | MoveHeadPrecise (roll pitch yaw duration : pynum)
  | MoveAntennas (right_angle left_angle duration : pynum)
  | AntennaExpression (expression : string)
  | NodYes (times : Z)
  | ShakeNo (times : Z)
  | TiltHead (direction : string) (angle : pynum)
  | LookAtCamera
  | DoWakeUp
  | DoGoToSleep
  | ExpressEmotion (emotion : string)
  | DoDance (style : string)
  | ResetPosition.

Definition invoke (c : facade_call) : M string :=
  match c with
  | MoveHead direction duration => move_head direction duration
  | MoveHeadPrecise roll pitch yaw duration => move_head_precise roll pitch yaw duration
  | MoveAntennas right_angle left_angle duration => move_antennas right_angle left_angle duration
  | AntennaExpression expression => antenna_expression expression
  | NodYes times => nod_yes times
  | ShakeNo times => shake_no times
  | TiltHead direction angle => tilt_head direction angle
  | LookAtCamera => look_at_camera
  | DoWakeUp => wake_up
  | DoGoToSleep => go_to_sleep
  | ExpressEmotion emotion => express_emotion emotion
  | DoDance style => do_dance style
  | ResetPosition => reset_position
  end.

(** *** Choreographies as data *)

(** A motion step: the targets of one device call, its duration, and the
    pause that follows it ([None]: the step is followed by no sleep). *)
Record MotionStep : Type := {
  orientation : option HeadPose;
  step_antennas : option (list pynum);
  step_duration : pynum;
  postDelay : option pynum;
}.

Definition step_request (s : MotionStep) : device_request :=
  GotoTarget (orientation s) (step_antennas s) (step_duration s).

(** A step whose head target is given by integer degrees. *)
Definition head_step (r p y : Z) (antennas : option (list pynum)) (duration : Q)
    (delay : option Q) : MotionStep :=
  {| orientation := Some (create_head_pose (PyInt r) (PyInt p) (PyInt y));
     step_antennas := antennas;
     step_duration := PyFloat duration;
     postDelay := PyFloat <$> delay |}.

Inductive emotion : Type :=
  | Happy | Sad | Surprised | Curious | Excited | Sleepy | Confused | Angry | Love.

Definition emotion_name (e : emotion) : string :=
  match e with
  | Happy => "happy"
  | Sad => "sad"
  | Surprised => "surprised"
  | Curious => "curious"
  | Excited => "excited"
  | Sleepy => "sleepy"
  | Confused => "confused"
  | Angry => "angry"
  | Love => "love"
  end.

(** The named choreographies of the controller. *)
Inductive choreography : Type :=
  | Nod (times : Z)
  | Shake (times : Z)
  | Emotion (e : emotion)
  | Dance (style : string).

(** The facade call that plays a choreography. *)
Definition choreography_call (c : choreography) : facade_call :=
  match c with
  | Nod times => NodYes times
  | Shake times => ShakeNo times
  | Emotion e => ExpressEmotion (emotion_name e)
  | Dance style => DoDance style
  end.

(** [count] repetitions of a sub-sequence. *)
Definition repeat_steps (count : nat) (cycle : list MotionStep) : list MotionStep :=
  concat (replicate count cycle).

Definition nod_cycle : list MotionStep :=
  [ head_step 0 15 0 None 0.15 (Some 0.1%Q);
    head_step 0 (-10) 0 None 0.15 (Some 0.1%Q) ].

Definition shake_cycle : list MotionStep :=
  [ head_step 0 0 20 None 0.15 (Some 0.05%Q);
    head_step 0 0 (-20) None 0.15 (Some 0.05%Q) ].

Definition excited_cycle : list MotionStep :=
  [ head_step 0 (-10) 0 (Some [PyFloat 0.8; PyFloat (-0.8)]) 0.1 (Some 0.08%Q);
    head_step 0 5 0 (Some [PyFloat (-0.2); PyFloat 0.2]) 0.1 (Some 0.08%Q) ].

Definition silly_cycle : list MotionStep :=
  [ head_step 25 0 15 (Some [PyFloat 1.0; PyInt 0]) 0.2 (Some 0.15%Q);
    head_step (-25) 0 (-15) (Some [PyInt 0; PyFloat (-1.0)]) 0.2 (Some 0.15%Q) ].

Definition dance_cycle : list MotionStep :=
  [ head_step 15 (-5) 0 (Some [PyFloat 0.6; PyFloat (-0.6)]) 0.15 (Some 0.1%Q);
    head_step (-15) (-5) 0 (Some [PyFloat (-0.6); PyFloat 0.6]) 0.15 (Some 0.1%Q) ].

Definition emotion_steps (e : emotion) : list MotionStep :=
  match e with
  | Happy =>
      [ head_step 15 0 0 (Some [PyFloat 0.5; PyFloat (-0.5)]) 0.2 (Some 0.15%Q);
        head_step (-15) 0 0 (Some [PyFloat (-0.5); PyFloat 0.5]) 0.2 (Some 0.15%Q);
        head_step 0 0 0 (Some [PyFloat 0.3; PyFloat (-0.3)]) 0.2 None ]
  | Sad =>
      [ head_step 0 25 0 (Some [PyFloat (-1.2); PyFloat 1.2]) 0.8 (Some 0.8%Q);
        head_step 0 5 0 (Some [PyFloat (-0.3); PyFloat 0.3]) 0.5 None ]
  | Surprised =>
      [ head_step 0 (-20) 0 (Some [PyFloat 1.0; PyFloat (-1.0)]) 0.12 (Some 0.4%Q);
        head_step 0 0 0 (Some [PyFloat 0.3; PyFloat (-0.3)]) 0.3 None ]
  | Curious =>
      [ head_step 20 (-10) 0 (Some [PyFloat 0.6; PyFloat 0.1]) 0.4 (Some 0.5%Q);
        head_step 0 0 0 (Some [PyInt 0; PyInt 0]) 0.3 None ]
  | Excited =>
      repeat_steps 3 excited_cycle
      ++ [ head_step 0 0 0 (Some [PyFloat 0.5; PyFloat (-0.5)]) 0.2 None ]
  | Sleepy =>
      [ head_step 8 25 0 (Some [PyFloat (-1.3); PyFloat 1.3]) 1.2 (Some 0.5%Q);
        head_step 8 30 0 None 0.3 (Some 0.3%Q);
        head_step 0 15 0 (Some [PyFloat (-0.8); PyFloat 0.8]) 0.4 None ]
  | Confused =>
      [ head_step 15 (-5) 0 (Some [PyFloat 0.4; PyFloat 0.6]) 0.3 (Some 0.3%Q);
        head_step (-15) (-5) 0 (Some [PyFloat 0.6; PyFloat 0.4]) 0.3 (Some 0.3%Q);
        head_step 8 0 0 (Some [PyFloat 0.2; PyFloat 0.4]) 0.25 None ]
  | Angry =>
      [ head_step 0 10 0 (Some [PyFloat 0.8; PyFloat (-0.8)]) 0.2 (Some 0.2%Q);
        head_step 0 10 10 None 0.1 (Some 0.1%Q);
        head_step 0 10 (-10) None 0.1 (Some 0.1%Q);
        head_step 0 5 0 (Some [PyFloat 0.5; PyFloat (-0.5)]) 0.2 None ]
  | Love =>
      [ head_step 12 (-8) 0 (Some [PyFloat 0.4; PyFloat (-0.4)]) 0.5 (Some 0.4%Q);
        head_step (-12) (-8) 0 (Some [PyFloat (-0.4); PyFloat 0.4]) 0.5 (Some 0.4%Q);
        head_step 0 0 0 (Some [PyFloat 0.2; PyFloat (-0.2)]) 0.3 None ]
  end.

(** The steps of a choreography, in their defined order. *)
Definition choreography_steps (c : choreography) : list MotionStep :=
  match c with
  | Nod times =>
      repeat_steps (Z.to_nat (Z.max 1 (Z.min 5 times))) nod_cycle
      ++ [ head_step 0 0 0 None 0.2 None ]
  | Shake times =>
      repeat_steps (Z.to_nat (Z.max 1 (Z.min 5 times))) shake_cycle
      ++ [ head_step 0 0 0 None 0.2 None ]
  | Emotion e => emotion_steps e
  | Dance style =>
      (if decide (style = "silly") then repeat_steps 2 silly_cycle
       else repeat_steps 3 dance_cycle)
      ++ [ head_step 0 0 0 (Some [PyInt 0; PyInt 0]) 0.25 None ]
  end.

(** *** The documented names *)

(** The names each command documents in its docstring. *)
Definition directions : list string := ["left"; "right"; "up"; "down"; "center"].

Definition expression_names : list string :=
  ["neutral"; "alert"; "droopy"; "asymmetric"; "perky"].

Definition emotion_names : list string :=
  ["happy"; "sad"; "surprised"; "curious"; "excited"; "sleepy"; "confused"; "angry"; "love"].

Definition dance_styles : list string := ["default"; "happy"; "silly"].

(** What one step leaves in the trace, log lines apart: its device call,
    the return of that call, and its pause. *)
Definition step_block (sr : MotionStep * option exn) : list event :=
  Call (step_request sr.1) :: Return sr.2
  :: match postDelay sr.1 with Some d => [Sleep d] | None => [] end.

(** The failed device calls of a trace. *)
Definition failures (evs : list event) : list exn :=
  omap (fun ev => match ev with Return (Some e) => Some e | _ => None end) evs.

(** *** Safety of what reaches the device *)

(** A value that the Safety Clamp of its axis leaves as it is. *)
Definition clamped (a : axis) (v : pynum) : Prop := clamp_axis a v = v.

Definition safe_pose (p : HeadPose) : Prop :=
  clamped HeadRoll (roll p) /\ clamped HeadPitch (pitch p) /\ clamped HeadYaw (yaw p).

Definition safe_request (rq : device_request) : Prop :=
  match rq with
  | GotoTarget head antennas _ =>
      match head with Some p => safe_pose p | None => True end
      /\ match antennas with Some l => Forall (clamped AntennaRadians) l | None => True end
  | WakeUp | GotoSleep => True
  end.

(** *** Traces of the sequencing code *)

(** The events of one [_goto_target] call made after history [h]. *)
Definition goto_events (h : list event) (rq : device_request) : list event :=
  Call rq :: Return (robot h rq)
  :: match robot h rq with
     | Some e => [Log ERROR ("Motion error: " +:+ exn_str e)]
     | None => []
     end.

Definition step_events (h : list event) (s : MotionStep) : list event :=
  goto_events h (step_request s)
  ++ match postDelay s with Some d => [Sleep d] | None => [] end.

(** The events of a sequence of steps played after history [h]. *)
Fixpoint render (h : list event) (steps : list MotionStep) : list event :=
  match steps with
  | [] => []
  | s :: rest => step_events h s ++ render (h ++ step_events h s) rest
  end.

(** [m], run after [h], returns [a] and adds the events [evs]. *)
Definition yields {A} (m : M A) (h : list event) (a : A) (evs : list event) : Prop :=
  m h = (Ok a, evs).

(** The nominal length of a step and of a sequence of steps. *)
Definition step_seconds (s : MotionStep) : Q :=
  (num_val (step_duration s)
   + match postDelay s with Some d => num_val d | None => 0 end)%Q.

Definition steps_seconds (steps : list MotionStep) : Q :=
  foldr (fun s total => (step_seconds s + total)%Q) 0%Q steps.

(** How each command starts the line it logs for a failed device call. *)
Definition error_prefix (c : facade_call) : string :=
  match c with
  | DoWakeUp => "Wake up error: "
  | DoGoToSleep => "Sleep error: "
  | _ => "Motion error: "
  end.

(** *** The gestures on any number *)

(** [nod_yes] as Python runs it when [times] is any number: [max] and [min]
    compare a [float] as they compare an [int], the f-string renders it,
    and [range(times)] raises [TypeError] on it. *)
Definition nod_yes_untyped (times : pynum) : M string :=
  let times := py_max (PyInt 1) (py_min (PyInt 5) times) in
  log INFO ("Nodding yes " +:+ py_str times +:+ " times");;
  n ← py_range times;
  for_range n
    (_goto_target (Some (create_head_pose (PyInt 0) (PyInt 15) (PyInt 0))) None (PyFloat 0.15);;
     sleep (PyFloat 0.1);;
     _goto_target (Some (create_head_pose (PyInt 0) (PyInt (-10)) (PyInt 0))) None (PyFloat 0.15);;
     sleep (PyFloat 0.1));;
  _goto_target (Some (create_head_pose (PyInt 0) (PyInt 0) (PyInt 0))) None (PyFloat 0.2);;
  mret ("Nodded yes " +:+ py_str times +:+ " times").

(** [shake_no], likewise. *)
Definition shake_no_untyped (times : pynum) : M string :=
  let times := py_max (PyInt 1) (py_min (PyInt 5) times) in
  log INFO ("Shaking no " +:+ py_str times +:+ " times");;
  n ← py_range times;
  for_range n
    (_goto_target (Some (create_head_pose (PyInt 0) (PyInt 0) (PyInt 20))) None (PyFloat 0.15);;
     sleep (PyFloat 0.05);;
     _goto_target (Some (create_head_pose (PyInt 0) (PyInt 0) (PyInt (-20)))) None (PyFloat 0.15);;
     sleep (PyFloat 0.05));;
  _goto_target (Some (create_head_pose (PyInt 0) (PyInt 0) (PyInt 0))) None (PyFloat 0.2);;
  mret ("Shook head no " +:+ py_str times +:+ " times").

(** *** The path from a table to the device *)

(** [move_head] with its local dict [poses] as a parameter: what the code
    does between the lookup of the direction and the device call. *)
Definition move_head_over (poses : gmap string (pynum * pynum * pynum))
    (direction : string) (duration : pynum) : M string :=
  direction ← match poses !! direction with
              | None =>
                  log WARNING ("Unknown direction: " +:+ direction +:+ ", using center");;
                  mret "center"
              | Some _ => mret direction
              end;
  p ← getitem poses direction;
  let '(roll, pitch, yaw) := p in
  let pose := create_head_pose roll pitch yaw in
  log INFO ("Moving head " +:+ direction);;
  _goto_target (Some pose) None duration;;
  mret ("Moved head " +:+ direction).

(** *** The bounds of the Safety Clamp, in numbers *)

(** Roll and pitch from -30 to 30 degrees, yaw from -45 to 45 degrees. *)
Definition pose_within_limits (p : HeadPose) : Prop :=
  (-30 <= num_val (roll p) <= 30)%Q
  /\ (-30 <= num_val (pitch p) <= 30)%Q
  /\ (-45 <= num_val (yaw p) <= 45)%Q.

(** An antenna from -1.57 to 1.57 rad. *)
Definition antenna_within_limits (v : pynum) : Prop :=
  (-1.57 <= num_val v <= 1.57)%Q.

Definition request_within_limits (rq : device_request) : Prop :=
  match rq with
  | GotoTarget head antennas _ =>
      match head with Some p => pose_within_limits p | None => True end
      /\ match antennas with Some l => Forall antenna_within_limits l | None => True end
  | WakeUp | GotoSleep => True
  end.

(** * Properties *)

(** ** Numbers and the Safety Clamp *)

Lemma Qltb_lt (x y : Q) : Qltb x y = true <-> (x < y)%Q.
Proof. unfold Qltb, Qlt. apply Z.ltb_lt. Qed.

Lemma Qltb_ge (x y : Q) : Qltb x y = false <-> (y <= x)%Q.
Proof. unfold Qltb, Qle. apply Z.ltb_ge. Qed.

Lemma py_lt_spec (a b : pynum) :
  reflect (num_val a < num_val b)%Q (py_lt a b).
Proof.
  unfold py_lt. destruct (Qltb (num_val a) (num_val b)) eqn:E; constructor.
  - by apply Qltb_lt.
  - apply Qltb_ge in E. lra.
Qed.

Lemma py_min_val (a b : pynum) :
  (num_val (py_min a b) == Qmin (num_val a) (num_val b))%Q.
Proof.
  unfold py_min. destruct (py_lt_spec b a).
  - symmetry. apply Q.min_r. lra.
  - symmetry. apply Q.min_l. lra.
Qed.

Lemma py_max_val (a b : pynum) :
  (num_val (py_max a b) == Qmax (num_val a) (num_val b))%Q.
Proof.
  unfold py_max. destruct (py_lt_spec a b).
  - symmetry. apply Q.max_r. lra.
  - symmetry. apply Q.max_l. lra.
Qed.

Lemma clamp_val (lo hi x : pynum) :
  (num_val (clamp lo hi x) == Qmax (num_val lo) (Qmin (num_val hi) (num_val x)))%Q.
Proof.
  unfold clamp. rewrite py_max_val. by rewrite py_min_val.
Qed.

Lemma clamp_range (lo hi x : pynum) :
  (num_val lo <= num_val hi)%Q ->
  (num_val lo <= num_val (clamp lo hi x) <= num_val hi)%Q.
Proof.
  intros Hle. unfold clamp, py_max, py_min.
  destruct (py_lt_spec x hi);
    match goal with |- context [py_lt ?a ?b] => destruct (py_lt_spec a b) end; lra.
Qed.

Lemma clamp_idempotent (lo hi x : pynum) :
  clamp lo hi (clamp lo hi x) = clamp lo hi x.
Proof.
  unfold clamp, py_max, py_min.
  repeat (match goal with
          | |- context [py_lt ?a ?b] => is_var a; is_var b; destruct (py_lt_spec a b)
          end);
    try reflexivity; lra.
Qed.

(** A value strictly between the bounds is left as it is. *)
Lemma clamp_inside (lo hi x : pynum) :
  (num_val lo < num_val x)%Q -> (num_val x < num_val hi)%Q -> clamp lo hi x = x.
Proof.
  intros H1 H2. unfold clamp, py_max, py_min.
  destruct (py_lt_spec x hi); [|lra]. destruct (py_lt_spec lo x); [done|lra].
Qed.

(** A value at or below the lower bound becomes the lower bound. *)
Lemma clamp_below (lo hi x : pynum) :
  (num_val lo <= num_val hi)%Q -> (num_val x <= num_val lo)%Q -> clamp lo hi x = lo.
Proof.
  intros H1 H2. unfold clamp, py_max, py_min.
  destruct (py_lt_spec x hi).
  - destruct (py_lt_spec lo x); [lra|done].
  - destruct (py_lt_spec lo hi); [lra|done].
Qed.

(** A value at or above the upper bound becomes the upper bound. *)
Lemma clamp_above (lo hi x : pynum) :
  (num_val lo < num_val hi)%Q -> (num_val hi <= num_val x)%Q -> clamp lo hi x = hi.
Proof.
  intros H1 H2. unfold clamp, py_max, py_min.
  destruct (py_lt_spec x hi); [lra|].
  destruct (py_lt_spec lo hi); [done|lra].
Qed.

(** On two [int]s, [max] and [min] are those of the integers. *)
Lemma clamp_int (lo hi z : Z) :
  clamp (PyInt lo) (PyInt hi) (PyInt z) = PyInt (Z.max lo (Z.min hi z)).
Proof.
  assert (Hlt : forall a b, py_lt (PyInt a) (PyInt b) = (a <? b)).
  { intros a b. unfold py_lt, Qltb. cbn. by rewrite !Z.mul_1_r. }
  unfold clamp, py_max, py_min. rewrite Hlt.
  destruct (Z.ltb_spec z hi); rewrite Hlt;
    match goal with |- context [?a <? ?b] => destruct (Z.ltb_spec a b) end;
    f_equal; lia.
Qed.

Lemma axis_bounds_ordered (a : axis) : (num_val (axis_min a) <= num_val (axis_max a))%Q.
Proof. destruct a; vm_compute; discriminate. Qed.

Lemma clamped_clamp_axis (a : axis) (x : pynum) : clamped a (clamp_axis a x).
Proof. apply clamp_idempotent. Qed.

Lemma clamped_in_range (a : axis) (v : pynum) :
  clamped a v -> (num_val (axis_min a) <= num_val v <= num_val (axis_max a))%Q.
Proof.
  unfold clamped, clamp_axis. intros <-. apply clamp_range, axis_bounds_ordered.
Qed.

(** ** Running coroutines *)

Lemma yields_ret {A} (a : A) (h : list event) : yields (mret a) h a [].
Proof. reflexivity. Qed.

Lemma yields_bind {A B} (m : M A) (k : A -> M B) h a e1 b e2 :
  yields m h a e1 -> yields (k a) (h ++ e1) b e2 -> yields (m ≫= k) h b (e1 ++ e2).
Proof. unfold yields, mbind, M_bind, bind. by intros -> ->. Qed.

Lemma yields_events {A} (m : M A) h a e e' :
  yields m h a e -> e = e' -> yields m h a e'.
Proof. by intros ? <-. Qed.

Lemma yields_log lvl msg h : yields (log lvl msg) h () [Log lvl msg].
Proof. reflexivity. Qed.

Lemma yields_sleep d h : yields (sleep d) h () [Sleep d].
Proof. reflexivity. Qed.

(** [_goto_target] absorbs every failure of the device. *)
Lemma yields_goto_target head antennas duration h :
  yields (_goto_target head antennas duration) h ()
    (goto_events h (GotoTarget head antennas duration)).
Proof.
  unfold yields, _goto_target, try_except, to_thread, goto_events.
  by destruct (robot h _).
Qed.

(** Outside a [try], a failure of the device is raised in the coroutine. *)
Lemma to_thread_raises (rq : device_request) (e : exn) h :
  robot h rq = Some e -> to_thread rq h = (Raise e, [Call rq; Return (Some e)]).
Proof. unfold to_thread. by intros ->. Qed.

Lemma yields_getitem {V} (d : gmap string V) (k : string) (v : V) h :
  d !! k = Some v -> yields (getitem d k) h v [].
Proof. unfold yields, getitem. by intros ->. Qed.

Lemma yields_outcome {A} (m : M A) h a e : yields m h a e -> outcome (m h) = Ok a.
Proof. by intros ->. Qed.

Lemma yields_trace {A} (m : M A) h a e : yields m h a e -> events (m h) = e.
Proof. by intros ->. Qed.

(** ** Laws of the monad, pointwise *)

Lemma bind_ret_l {A B} (a : A) (k : A -> M B) (h : list event) :
  (mret a ≫= k) h = k a h.
Proof.
  unfold mbind, M_bind, bind, mret, M_ret, ret. rewrite app_nil_r.
  by destruct (k a h).
Qed.

Lemma bind_ext {A B} (m : M A) (k k' : A -> M B) (h : list event) :
  (forall a h', k a h' = k' a h') -> (m ≫= k) h = (m ≫= k') h.
Proof.
  intros Hk. unfold mbind, M_bind, bind. destruct (m h) as [[a|e] e1]; [|done].
  by rewrite Hk.
Qed.

#[local] Arguments goto_events : simpl never.

(** Symbolic execution of straight-line code. *)
Ltac run_step :=
  first
    [ apply yields_goto_target
    | apply yields_sleep
    | apply yields_log
    | apply yields_ret
    | apply yields_getitem; first [ eassumption | reflexivity ] ].

Ltac run_code :=
  cbv beta;
  first [ run_step | eapply yields_bind; [ run_code | run_code ] ].

Ltac trace_eq :=
  cbn [render]; unfold step_events, step_request, head_step;
  cbn [orientation step_antennas step_duration postDelay fmap option_fmap option_map];
  rewrite <- ?app_assoc; cbn [app];
  rewrite ?app_nil_r; reflexivity.

Ltac run_table := eapply yields_events; [ run_code | trace_eq ].

(** ** Sequences of steps *)

Lemma render_app (h : list event) (s1 s2 : list MotionStep) :
  render h (s1 ++ s2) = render h s1 ++ render (h ++ render h s1) s2.
Proof.
  revert h. induction s1 as [|s r IH]; intros h; cbn [render app].
  - by rewrite app_nil_r.
  - rewrite IH. by rewrite <- !app_assoc.
Qed.

(** A loop whose body plays [cycle] plays [count] copies of it. *)
Lemma yields_for_range (body : M unit) (cycle : list MotionStep) :
  (forall h, yields body h () (render h cycle)) ->
  forall count h, yields (for_range count body) h () (render h (repeat_steps count cycle)).
Proof.
  intros Hbody count. induction count as [|n IH]; intros h.
  - apply yields_ret.
  - cbn [for_range]. unfold repeat_steps. cbn [replicate concat].
    rewrite render_app. eapply yields_bind; [apply Hbody | apply IH].
Qed.

(** ** The expressions and gestures play their tables *)

Lemma happy_yields h : yields _happy_expression h () (render h (emotion_steps Happy)).
Proof. unfold _happy_expression, emotion_steps. run_table. Qed.

Lemma sad_yields h : yields _sad_expression h () (render h (emotion_steps Sad)).
Proof. unfold _sad_expression, emotion_steps. run_table. Qed.

Lemma surprised_yields h :
  yields _surprised_expression h () (render h (emotion_steps Surprised)).
Proof. unfold _surprised_expression, emotion_steps. run_table. Qed.

Lemma curious_yields h : yields _curious_expression h () (render h (emotion_steps Curious)).
Proof. unfold _curious_expression, emotion_steps. run_table. Qed.

Lemma sleepy_yields h : yields _sleepy_expression h () (render h (emotion_steps Sleepy)).
Proof. unfold _sleepy_expression, emotion_steps. run_table. Qed.

Lemma confused_yields h :
  yields _confused_expression h () (render h (emotion_steps Confused)).
Proof. unfold _confused_expression, emotion_steps. run_table. Qed.

Lemma angry_yields h : yields _angry_expression h () (render h (emotion_steps Angry)).
Proof. unfold _angry_expression, emotion_steps. run_table. Qed.

Lemma love_yields h : yields _love_expression h () (render h (emotion_steps Love)).
Proof. unfold _love_expression, emotion_steps. run_table. Qed.

(** A loop over a two-step cycle followed by a closing step. *)
Lemma yields_cycles_then (body : M unit) (cycle : list MotionStep) (count : nat)
    (last : MotionStep) h :
  (forall h, yields body h () (render h cycle)) ->
  postDelay last = None ->
  yields (for_range count body;;
          _goto_target (orientation last) (step_antennas last) (step_duration last))
    h () (render h (repeat_steps count cycle ++ [last])).
Proof.
  intros Hbody Hlast. rewrite render_app.
  eapply yields_bind; [by apply yields_for_range|].
  eapply yields_events; [apply yields_goto_target|].
  cbn [render]. unfold step_events. rewrite Hlast. by rewrite !app_nil_r.
Qed.

Lemma yields_cycles_then_ret {B} (body : M unit) (cycle : list MotionStep) (count : nat)
    (last : MotionStep) (b : B) h :
  (forall h, yields body h () (render h cycle)) ->
  postDelay last = None ->
  yields (for_range count body;;
          _goto_target (orientation last) (step_antennas last) (step_duration last);;
          mret b)
    h b (render h (repeat_steps count cycle ++ [last])).
Proof.
  intros Hbody Hlast. rewrite render_app.
  eapply yields_bind; [by apply yields_for_range|].
  eapply yields_events.
  - eapply yields_bind; [apply yields_goto_target|apply yields_ret].
  - cbn [render]. unfold step_events. rewrite Hlast. by rewrite !app_nil_r.
Qed.

Lemma excited_yields h : yields _excited_expression h () (render h (emotion_steps Excited)).
Proof.
  unfold _excited_expression, emotion_steps.
  apply (yields_cycles_then _ excited_cycle 3
           (head_step 0 0 0 (Some [PyFloat 0.5; PyFloat (-0.5)]) 0.2 None)); [|done].
  intros h'. unfold excited_cycle. run_table.
Qed.

Lemma emotion_method_yields (e : emotion) :
  exists method,
    emotion_methods !! emotion_name e = Some method
    /\ forall h, yields method h () (render h (emotion_steps e)).
Proof.
  destruct e; eexists; (split; [reflexivity|]); intros h.
  - apply happy_yields.
  - apply sad_yields.
  - apply surprised_yields.
  - apply curious_yields.
  - apply excited_yields.
  - apply sleepy_yields.
  - apply confused_yields.
  - apply angry_yields.
  - apply love_yields.
Qed.

Lemma express_emotion_yields (e : emotion) h :
  let info := Log INFO ("Expressing emotion: " +:+ emotion_name e) in
  yields (express_emotion (emotion_name e)) h ("Expressed " +:+ emotion_name e)
    (info :: render (h ++ [info]) (emotion_steps e)).
Proof.
  intros info. destruct (emotion_method_yields e) as (method & Hlookup & Hrun).
  unfold express_emotion. rewrite Hlookup.
  eapply yields_events.
  - eapply yields_bind; [apply yields_log|].
    eapply yields_bind; [by apply yields_getitem|].
    eapply yields_bind; [apply Hrun|]. apply yields_ret.
  - cbn [app]. by rewrite !app_nil_r.
Qed.

Lemma nod_yes_yields (times : Z) h :
  let n := Z.max 1 (Z.min 5 times) in
  let info := Log INFO ("Nodding yes " +:+ pretty n +:+ " times") in
  yields (nod_yes times) h ("Nodded yes " +:+ pretty n +:+ " times")
    (info :: render (h ++ [info]) (choreography_steps (Nod times))).
Proof.
  intros n info. unfold nod_yes.
  apply (yields_bind _ _ h () [info]); [apply yields_log|].
  apply (yields_cycles_then_ret _ nod_cycle _ (head_step 0 0 0 None 0.2 None)); [|done].
  intros h'. unfold nod_cycle. run_table.
Qed.

Lemma shake_no_yields (times : Z) h :
  let n := Z.max 1 (Z.min 5 times) in
  let info := Log INFO ("Shaking no " +:+ pretty n +:+ " times") in
  yields (shake_no times) h ("Shook head no " +:+ pretty n +:+ " times")
    (info :: render (h ++ [info]) (choreography_steps (Shake times))).
Proof.
  intros n info. unfold shake_no.
  apply (yields_bind _ _ h () [info]); [apply yields_log|].
  apply (yields_cycles_then_ret _ shake_cycle _ (head_step 0 0 0 None 0.2 None)); [|done].
  intros h'. unfold shake_cycle. run_table.
Qed.

Lemma do_dance_yields (style : string) h :
  let info := Log INFO ("Dancing: " +:+ style) in
  yields (do_dance style) h ("Finished " +:+ style +:+ " dance")
    (info :: render (h ++ [info]) (choreography_steps (Dance style))).
Proof.
  intros info. unfold do_dance, choreography_steps.
  apply (yields_bind _ _ h () [info]); [apply yields_log|].
  destruct (decide (style = "silly")).
  - apply (yields_cycles_then_ret _ silly_cycle _
             (head_step 0 0 0 (Some [PyInt 0; PyInt 0]) 0.25 None)); [|done].
    intros h'. unfold silly_cycle. run_table.
  - apply (yields_cycles_then_ret _ dance_cycle _
             (head_step 0 0 0 (Some [PyInt 0; PyInt 0]) 0.25 None)); [|done].
    intros h'. unfold dance_cycle. run_table.
Qed.

(** Every choreography logs one line and then plays its steps. *)
Lemma choreography_yields (c : choreography) h :
  exists msg info,
    msg <> ""
    /\ yields (invoke (choreography_call c)) h msg
         (Log INFO info :: render (h ++ [Log INFO info]) (choreography_steps c)).
Proof.
  destruct c as [times|times|e|style]; cbn [invoke choreography_call choreography_steps].
  - do 2 eexists. split; [|apply nod_yes_yields]. done.
  - do 2 eexists. split; [|apply shake_no_yields]. done.
  - do 2 eexists. split; [|apply express_emotion_yields]. done.
  - do 2 eexists. split; [|apply do_dance_yields]. done.
Qed.

(** ** What a sequence of steps leaves in the trace *)

Lemma skeleton_app (l1 l2 : list event) : skeleton (l1 ++ l2) = skeleton l1 ++ skeleton l2.
Proof.
  induction l1 as [|ev l1 IH]; [done|]. cbn [app skeleton].
  destruct (is_log ev); by rewrite IH.
Qed.

Lemma device_calls_app (l1 l2 : list event) :
  device_calls (l1 ++ l2) = device_calls l1 ++ device_calls l2.
Proof. apply omap_app. Qed.

Lemma errors_app (l1 l2 : list event) : errors (l1 ++ l2) = errors l1 ++ errors l2.
Proof. apply omap_app. Qed.

Lemma failures_app (l1 l2 : list event) : failures (l1 ++ l2) = failures l1 ++ failures l2.
Proof. apply omap_app. Qed.

Lemma step_events_skeleton h s :
  skeleton (step_events h s) = step_block (s, robot h (step_request s)).
Proof.
  unfold step_events, goto_events, step_block. cbn [fst snd].
  destruct (robot h (step_request s)), (postDelay s); reflexivity.
Qed.

Lemma step_events_device_calls h s : device_calls (step_events h s) = [step_request s].
Proof.
  unfold step_events, goto_events.
  destruct (robot h (step_request s)), (postDelay s); reflexivity.
Qed.

Lemma step_events_errors h s :
  errors (step_events h s)
  = (fun e => "Motion error: " +:+ exn_str e) <$> failures (step_events h s).
Proof.
  unfold step_events, goto_events.
  destruct (robot h (step_request s)), (postDelay s); reflexivity.
Qed.

Lemma render_skeleton h steps :
  exists returns : list (option exn),
    length returns = length steps
    /\ skeleton (render h steps) = flat_map step_block (zip steps returns).
Proof.
  revert h. induction steps as [|s rest IH]; intros h.
  - by exists [].
  - destruct (IH (h ++ step_events h s)) as (returns & Hlen & Hsk).
    exists (robot h (step_request s) :: returns). split; [by cbn; rewrite Hlen|].
    cbn [render zip zip_with flat_map]. rewrite skeleton_app, Hsk.
    by rewrite step_events_skeleton.
Qed.

Lemma render_device_calls h steps :
  device_calls (render h steps) = step_request <$> steps.
Proof.
  revert h. induction steps as [|s rest IH]; intros h; [done|].
  cbn [render]. rewrite device_calls_app, IH. by rewrite step_events_device_calls.
Qed.

Lemma render_errors h steps :
  errors (render h steps)
  = (fun e => "Motion error: " +:+ exn_str e) <$> failures (render h steps).
Proof.
  revert h. induction steps as [|s rest IH]; intros h; [done|].
  cbn [render]. rewrite errors_app, failures_app, fmap_app, IH.
  by rewrite step_events_errors.
Qed.

(** ** The single-step commands *)

Lemma move_head_known (direction : string) (p : pynum * pynum * pynum) duration h :
  poses !! direction = Some p ->
  let info := Log INFO ("Moving head " +:+ direction) in
  yields (move_head direction duration) h ("Moved head " +:+ direction)
    (info :: goto_events (h ++ [info])
               (GotoTarget (Some (create_head_pose p.1.1 p.1.2 p.2)) None duration)).
Proof.
  intros Hp info. unfold move_head. rewrite Hp. destruct p as [[r pi] y].
  eapply yields_events; [run_code|].
  cbn [app fst snd]. by rewrite !app_nil_r.
Qed.

Lemma move_head_unknown (direction : string) duration h :
  poses !! direction = None ->
  let warning := Log WARNING ("Unknown direction: " +:+ direction +:+ ", using center") in
  let info := Log INFO "Moving head center" in
  yields (move_head direction duration) h "Moved head center"
    (warning :: info
     :: goto_events (h ++ [warning; info])
          (GotoTarget (Some (create_head_pose (PyInt 0) (PyInt 0) (PyInt 0))) None duration)).
Proof.
  intros Hp warning info. unfold move_head. rewrite Hp.
  eapply yields_events; [run_code|].
  cbn [app]. rewrite <- !app_assoc. cbn [app]. by rewrite !app_nil_r.
Qed.

Lemma move_head_precise_yields (r p y duration : pynum) h :
  let r' := clamp_axis HeadRoll r in
  let p' := clamp_axis HeadPitch p in
  let y' := clamp_axis HeadYaw y in
  let text := "roll=" +:+ py_str r' +:+ ", pitch=" +:+ py_str p' +:+ ", yaw=" +:+ py_str y' in
  let info := Log INFO ("Moving head to " +:+ text) in
  yields (move_head_precise r p y duration) h ("Moved head to " +:+ text)
    (info :: goto_events (h ++ [info])
               (GotoTarget (Some (create_head_pose r' p' y')) None duration)).
Proof.
  intros r' p' y' text info. unfold move_head_precise.
  eapply yields_events; [run_code|].
  cbn [app]. by rewrite !app_nil_r.
Qed.

Lemma move_antennas_yields (right_angle left_angle duration : pynum) h :
  let right_rad := clamp_axis AntennaRadians (np_radians right_angle) in
  let left_rad := clamp_axis AntennaRadians (np_radians left_angle) in
  let info := Log INFO ("Moving antennas: right=" +:+ py_str right_angle +:+ ", left="
                        +:+ py_str left_angle) in
  yields (move_antennas right_angle left_angle duration) h
    ("Moved antennas to right=" +:+ py_str right_angle +:+ ", left="
     +:+ py_str left_angle +:+ " degrees")
    (info :: goto_events (h ++ [info])
               (GotoTarget None (Some [right_rad; left_rad]) duration)).
Proof.
  intros right_rad left_rad info. unfold move_antennas.
  eapply yields_events; [run_code|].
  cbn [app]. by rewrite !app_nil_r.
Qed.

Lemma antenna_expression_known (expression : string) (antennas : list pynum) h :
  expressions !! expression = Some antennas ->
  let info := Log INFO ("Setting antenna expression: " +:+ expression) in
  yields (antenna_expression expression) h ("Set antennas to " +:+ expression)
    (info :: goto_events (h ++ [info]) (GotoTarget None (Some antennas) (PyFloat 0.3))).
Proof.
  intros He info. unfold antenna_expression. rewrite He.
  eapply yields_events; [run_code|].
  cbn [app]. by rewrite !app_nil_r.
Qed.

Lemma antenna_expression_unknown (expression : string) h :
  expressions !! expression = None ->
  antenna_expression expression h = antenna_expression "neutral" h.
Proof. intros He. unfold antenna_expression. by rewrite He. Qed.

Lemma tilt_head_yields (direction : string) (angle : pynum) h :
  let angle' := clamp (PyInt 5) (PyInt 30) angle in
  let r := if decide (direction = "left") then angle' else py_neg angle' in
  let info := Log INFO ("Tilting head " +:+ direction +:+ " by " +:+ py_str angle'
                        +:+ " degrees") in
  yields (tilt_head direction angle) h ("Tilted head " +:+ direction)
    (info :: goto_events (h ++ [info])
               (GotoTarget (Some (create_head_pose r (PyInt 0) (PyInt 0))) None (PyFloat 0.4))).
Proof.
  intros angle' r info. unfold tilt_head.
  eapply yields_events; [run_code|].
  cbn [app]. by rewrite !app_nil_r.
Qed.

Lemma look_at_camera_yields h :
  yields look_at_camera h "Looking at camera"
    (goto_events h
       (GotoTarget (Some (create_head_pose (PyInt 0) (PyInt 0) (PyInt 0)))
          (Some [PyInt 0; PyInt 0]) (PyFloat 0.3))).
Proof.
  unfold look_at_camera. eapply yields_events; [run_code|]. by rewrite !app_nil_r.
Qed.

Lemma reset_position_yields h :
  yields reset_position h "Reset to neutral position"
    (goto_events h
       (GotoTarget (Some (create_head_pose (PyInt 0) (PyInt 0) (PyInt 0)))
          (Some [PyInt 0; PyInt 0]) (PyFloat 0.5))).
Proof.
  unfold reset_position. eapply yields_events; [run_code|]. by rewrite !app_nil_r.
Qed.

(** The lifecycle calls report a failure of the device as text. *)
Lemma wake_up_yields h :
  let info := Log INFO "Performing wake up animation" in
  let r := robot (h ++ [info]) WakeUp in
  yields wake_up h
    (match r with
     | None => "Woke up and ready!"
     | Some e => "Wake up failed: " +:+ exn_str e
     end)
    (info :: Call WakeUp :: Return r
     :: match r with
        | None => []
        | Some e => [Log ERROR ("Wake up error: " +:+ exn_str e)]
        end).
Proof.
  intros info r. unfold yields, wake_up, try_except, to_thread, mbind, M_bind, bind, log, emit.
  fold info. fold r. by destruct r.
Qed.

Lemma go_to_sleep_yields h :
  let info := Log INFO "Going to sleep" in
  let r := robot (h ++ [info]) GotoSleep in
  yields go_to_sleep h
    (match r with
     | None => "Going to sleep..."
     | Some e => "Sleep failed: " +:+ exn_str e
     end)
    (info :: Call GotoSleep :: Return r
     :: match r with
        | None => []
        | Some e => [Log ERROR ("Sleep error: " +:+ exn_str e)]
        end).
Proof.
  intros info r. unfold yields, go_to_sleep, try_except, to_thread, mbind, M_bind, bind, log, emit.
  fold info. fold r. by destruct r.
Qed.

Lemma express_emotion_unknown (emotion : string) h :
  emotion_methods !! emotion = None ->
  yields (express_emotion emotion) h ("Unknown emotion: " +:+ emotion)
    [Log INFO ("Expressing emotion: " +:+ emotion);
     Log WARNING ("Unknown emotion: " +:+ emotion)].
Proof.
  intros He. unfold express_emotion. rewrite He.
  eapply yields_events; [run_code|]. done.
Qed.

(** ** The static tables *)

Lemma poses_unknown (direction : string) :
  direction ∉ directions -> poses !! direction = None.
Proof. intros H. by apply not_elem_of_list_to_map_1. Qed.

Lemma expressions_unknown (expression : string) :
  expression ∉ expression_names -> expressions !! expression = None.
Proof. intros H. by apply not_elem_of_list_to_map_1. Qed.

Lemma emotion_methods_unknown (emotion : string) :
  emotion ∉ emotion_names -> emotion_methods !! emotion = None.
Proof. intros H. by apply not_elem_of_list_to_map_1. Qed.

Lemma emotion_methods_known (name : string) (method : M unit) :
  emotion_methods !! name = Some method -> exists e, name = emotion_name e.
Proof.
  intros H. apply elem_of_list_to_map_2 in H.
  repeat (apply elem_of_cons in H as [H|H]; [injection H as -> _|]).
  - by exists Happy.
  - by exists Sad.
  - by exists Surprised.
  - by exists Curious.
  - by exists Excited.
  - by exists Sleepy.
  - by exists Confused.
  - by exists Angry.
  - by exists Love.
  - by apply elem_of_nil in H.
Qed.

Ltac clamped_values :=
  repeat first [ split | apply Forall_cons | apply Forall_nil | exact I ];
  vm_compute; reflexivity.

Lemma poses_safe (direction : string) (p : pynum * pynum * pynum) :
  poses !! direction = Some p -> safe_pose (create_head_pose p.1.1 p.1.2 p.2).
Proof.
  intros H. apply elem_of_list_to_map_2 in H.
  repeat (apply elem_of_cons in H as [H|H]; [injection H as _ ->; clamped_values|]).
  by apply elem_of_nil in H.
Qed.

Lemma expressions_safe (expression : string) (antennas : list pynum) :
  expressions !! expression = Some antennas -> Forall (clamped AntennaRadians) antennas.
Proof.
  intros H. apply elem_of_list_to_map_2 in H.
  repeat (apply elem_of_cons in H as [H|H]; [injection H as _ ->; clamped_values|]).
  by apply elem_of_nil in H.
Qed.

Lemma repeat_steps_Forall (P : MotionStep -> Prop) (count : nat) (cycle : list MotionStep) :
  Forall P cycle -> Forall P (repeat_steps count cycle).
Proof.
  intros H. unfold repeat_steps.
  induction count as [|n IH]; cbn [replicate concat]; [constructor|].
  by apply Forall_app.
Qed.

Ltac safe_steps :=
  repeat first
    [ apply Forall_app; split
    | apply repeat_steps_Forall
    | apply Forall_cons; split
    | apply Forall_nil ];
  clamped_values.

Lemma choreography_steps_safe (c : choreography) :
  Forall (fun s => safe_request (step_request s)) (choreography_steps c).
Proof.
  destruct c as [times|times|e|style]; cbn [choreography_steps].
  - safe_steps.
  - safe_steps.
  - destruct e; cbn [emotion_steps]; safe_steps.
  - destruct (decide (style = "silly")); safe_steps.
Qed.

Lemma py_neg_val (x : pynum) : (num_val (py_neg x) == - num_val x)%Q.
Proof. destruct x as [z|q]; cbn [py_neg num_val]; [|done]. by rewrite inject_Z_opp. Qed.

(** The tilt of [tilt_head] stays within the range of the roll axis. *)
Lemma tilt_roll_clamped (angle : pynum) :
  let angle' := clamp (PyInt 5) (PyInt 30) angle in
  clamped HeadRoll angle' /\ clamped HeadRoll (py_neg angle').
Proof.
  cbv zeta. unfold clamp, py_max, py_min.
  destruct (py_lt_spec angle (PyInt 30)) as [Hlt|Hge].
  - destruct (py_lt_spec (PyInt 5) angle) as [Hgt|Hle].
    + cbn [num_val] in Hlt, Hgt. unfold inject_Z in Hlt, Hgt.
      split; (apply clamp_inside; rewrite ?py_neg_val;
              cbn [axis_min axis_max num_val]; unfold inject_Z; lra).
    + by split.
  - destruct (py_lt_spec (PyInt 5) (PyInt 30)); by split.
Qed.

Lemma goto_events_device_calls h rq : device_calls (goto_events h rq) = [rq].
Proof. unfold goto_events. by destruct (robot h rq). Qed.

Lemma goto_events_warnings h rq : warnings (goto_events h rq) = [].
Proof. unfold goto_events. by destruct (robot h rq). Qed.

Lemma step_events_warnings h s : warnings (step_events h s) = [].
Proof.
  unfold step_events, goto_events.
  destruct (robot h (step_request s)), (postDelay s); reflexivity.
Qed.

Lemma device_calls_log lvl msg evs : device_calls (Log lvl msg :: evs) = device_calls evs.
Proof. reflexivity. Qed.

Lemma warnings_info msg evs : warnings (Log INFO msg :: evs) = warnings evs.
Proof. reflexivity. Qed.

Lemma warnings_warning msg evs : warnings (Log WARNING msg :: evs) = msg :: warnings evs.
Proof. reflexivity. Qed.

Lemma render_warnings h steps : warnings (render h steps) = [].
Proof.
  revert h. induction steps as [|s rest IH]; intros h; [done|].
  cbn [render]. unfold warnings. rewrite omap_app. fold (warnings (step_events h s)).
  fold (warnings (render (h ++ step_events h s) rest)).
  by rewrite step_events_warnings, IH.
Qed.

Ltac read_trace :=
  repeat first
    [ rewrite device_calls_log
    | rewrite warnings_info
    | rewrite warnings_warning
    | rewrite goto_events_device_calls
    | rewrite goto_events_warnings
    | rewrite render_device_calls
    | rewrite render_warnings ].

(** ** The claims of the specification *)

(** C4. For every input and every documented axis, the Safety Clamp is
    [max(lo, min(hi, x))], its value lies within the bounds of the axis,
    and clamping twice is the same as clamping once. *)
Theorem clamp_axis_bounded_idempotent (a : axis) (x : pynum) :
  clamp_axis a x = py_max (axis_min a) (py_min (axis_max a) x)
  /\ (num_val (clamp_axis a x)
      == Qmax (num_val (axis_min a)) (Qmin (num_val (axis_max a)) (num_val x)))%Q
  /\ (num_val (axis_min a) <= num_val (clamp_axis a x) <= num_val (axis_max a))%Q
  /\ clamp_axis a (clamp_axis a x) = clamp_axis a x.
Proof.
  split; [reflexivity|]. split; [apply clamp_val|].
  split; [apply clamp_range, axis_bounds_ordered|apply clamp_idempotent].
Qed.

(** C1 (amended). For an unknown name no exception reaches the caller and
    a status string is returned: [move_head] falls back to the center pose,
    logs a warning and reports "center"; [antenna_expression] falls back to
    the neutral preset and reports "neutral"; [do_dance] plays the default
    dance; [express_emotion] has no default variant: it issues no device
    call, logs a warning and returns "Unknown emotion: <name>". *)
Theorem unknown_name_fallback (name : string) (duration : pynum) (h : list event) :
  (name ∉ directions ->
     outcome (move_head name duration h) = Ok "Moved head center"
     /\ device_calls (events (move_head name duration h))
        = [GotoTarget (Some (create_head_pose (PyInt 0) (PyInt 0) (PyInt 0))) None duration]
     /\ device_calls (events (move_head name duration h))
        = device_calls (events (move_head "center" duration h))
     /\ warnings (events (move_head name duration h))
        = ["Unknown direction: " +:+ name +:+ ", using center"])
  /\ (name ∉ expression_names ->
     outcome (antenna_expression name h) = Ok "Set antennas to neutral"
     /\ device_calls (events (antenna_expression name h))
        = [GotoTarget None (Some [PyInt 0; PyInt 0]) (PyFloat 0.3)]
     /\ device_calls (events (antenna_expression name h))
        = device_calls (events (antenna_expression "neutral" h)))
  /\ (name ∉ emotion_names ->
     outcome (express_emotion name h) = Ok ("Unknown emotion: " +:+ name)
     /\ device_calls (events (express_emotion name h)) = []
     /\ warnings (events (express_emotion name h)) = ["Unknown emotion: " +:+ name])
  /\ (name ∉ dance_styles ->
     outcome (do_dance name h) = Ok ("Finished " +:+ name +:+ " dance")
     /\ device_calls (events (do_dance name h))
        = step_request <$> choreography_steps (Dance "default")
     /\ device_calls (events (do_dance name h))
        = device_calls (events (do_dance "default" h))).
Proof.
  repeat split.
  - by rewrite (yields_outcome _ _ _ _ (move_head_unknown _ duration h (poses_unknown _ H))).
  - rewrite (yields_trace _ _ _ _ (move_head_unknown _ duration h (poses_unknown _ H))).
    by read_trace.
  - rewrite (yields_trace _ _ _ _ (move_head_unknown _ duration h (poses_unknown _ H))).
    rewrite (yields_trace _ _ _ _ (move_head_known "center" _ duration h eq_refl)).
    by read_trace.
  - rewrite (yields_trace _ _ _ _ (move_head_unknown _ duration h (poses_unknown _ H))).
    by read_trace.
  - rewrite (antenna_expression_unknown _ h (expressions_unknown _ H)).
    by rewrite (yields_outcome _ _ _ _ (antenna_expression_known "neutral" _ h eq_refl)).
  - rewrite (antenna_expression_unknown _ h (expressions_unknown _ H)).
    rewrite (yields_trace _ _ _ _ (antenna_expression_known "neutral" _ h eq_refl)).
    by read_trace.
  - by rewrite (antenna_expression_unknown _ h (expressions_unknown _ H)).
  - by rewrite (yields_outcome _ _ _ _
                  (express_emotion_unknown _ h (emotion_methods_unknown _ H))).
  - by rewrite (yields_trace _ _ _ _
                  (express_emotion_unknown _ h (emotion_methods_unknown _ H))).
  - by rewrite (yields_trace _ _ _ _
                  (express_emotion_unknown _ h (emotion_methods_unknown _ H))).
  - by rewrite (yields_outcome _ _ _ _ (do_dance_yields name h)).
  - rewrite (yields_trace _ _ _ _ (do_dance_yields name h)).
    read_trace.
    cbn [choreography_steps]. destruct (decide (name = "silly")) as [->|]; [|done].
    exfalso. apply H. unfold dance_styles. set_solver.
  - rewrite !(yields_trace _ _ _ _ (do_dance_yields _ h)).
    read_trace.
    cbn [choreography_steps]. destruct (decide (name = "silly")) as [->|]; [|done].
    exfalso. apply H. unfold dance_styles. set_solver.
Qed.

(** C3. A choreography of N steps issues exactly N device calls, in the
    order of its definition; log lines apart, its trace is, step after
    step, the device call of the step, the return of that call and the
    pause of the step, so no call is issued before the previous call has
    returned and its pause has elapsed. *)
Theorem choreography_steps_in_order (c : choreography) (h : list event) :
  exists returns : list (option exn),
    length returns = length (choreography_steps c)
    /\ skeleton (events (invoke (choreography_call c) h))
       = flat_map step_block (zip (choreography_steps c) returns)
    /\ device_calls (events (invoke (choreography_call c) h))
       = step_request <$> choreography_steps c
    /\ length (device_calls (events (invoke (choreography_call c) h)))
       = length (choreography_steps c).
Proof.
  destruct (choreography_yields c h) as (msg & info & _ & Hrun).
  rewrite (yields_trace _ _ _ _ Hrun).
  destruct (render_skeleton (h ++ [Log INFO info]) (choreography_steps c))
    as (returns & Hlen & Hsk).
  exists returns. split; [done|]. split; [by cbn [skeleton is_log]|].
  read_trace. split; [done|]. by rewrite length_fmap.
Qed.

(** C5. A failure of the device is caught in [_goto_target] and logged,
    and [_goto_target] returns normally; whichever device calls fail, a
    choreography returns normally, issues the device call of every one of
    its steps, and logs one error per failed call. *)
Theorem device_failure_does_not_abort (c : choreography) (h : list event)
    (head : option HeadPose) (antennas : option (list pynum)) (duration : pynum) :
  (outcome (_goto_target head antennas duration h) = Ok ()
   /\ events (_goto_target head antennas duration h)
      = Call (GotoTarget head antennas duration)
        :: Return (robot h (GotoTarget head antennas duration))
        :: match robot h (GotoTarget head antennas duration) with
           | Some e => [Log ERROR ("Motion error: " +:+ exn_str e)]
           | None => []
           end)
  /\ (exists msg, outcome (invoke (choreography_call c) h) = Ok msg)
  /\ device_calls (events (invoke (choreography_call c) h))
     = step_request <$> choreography_steps c
  /\ errors (events (invoke (choreography_call c) h))
     = (fun e => "Motion error: " +:+ exn_str e)
       <$> failures (events (invoke (choreography_call c) h)).
Proof.
  split.
  { pose proof (yields_goto_target head antennas duration h) as Hrun.
    by rewrite (yields_outcome _ _ _ _ Hrun), (yields_trace _ _ _ _ Hrun). }
  destruct (choreography_yields c h) as (msg & info & _ & Hrun).
  rewrite (yields_outcome _ _ _ _ Hrun), (yields_trace _ _ _ _ Hrun).
  split; [by exists msg|]. split; [by read_trace|].
  change (errors (Log INFO info :: ?l)) with (errors l).
  change (failures (Log INFO info :: ?l)) with (failures l).
  apply render_errors.
Qed.

(** C8. [nod_yes(times=10)] clamps [times] to 5 and issues five times the
    two steps of a nod and then the reset step, 11 device calls in all; for
    every [times] the count of [nod_yes] and of [shake_no] is clamped to
    the range 1..5. *)
Theorem nod_yes_ten_times (h : list event) :
  (outcome (nod_yes 10 h) = Ok "Nodded yes 5 times"
   /\ device_calls (events (nod_yes 10 h))
      = step_request <$> (repeat_steps 5 nod_cycle ++ [head_step 0 0 0 None 0.2 None])
   /\ length (device_calls (events (nod_yes 10 h))) = 11%nat)
  /\ (outcome (shake_no 10 h) = Ok "Shook head no 5 times"
      /\ length (device_calls (events (shake_no 10 h))) = 11%nat)
  /\ forall times : Z,
       let count := Z.max 1 (Z.min 5 times) in
       1 <= count <= 5
       /\ device_calls (events (nod_yes times h))
          = step_request
            <$> (repeat_steps (Z.to_nat count) nod_cycle ++ [head_step 0 0 0 None 0.2 None])
       /\ device_calls (events (shake_no times h))
          = step_request
            <$> (repeat_steps (Z.to_nat count) shake_cycle ++ [head_step 0 0 0 None 0.2 None])
       /\ length (device_calls (events (nod_yes times h))) = (2 * Z.to_nat count + 1)%nat
       /\ length (device_calls (events (shake_no times h))) = (2 * Z.to_nat count + 1)%nat.
Proof.
  assert (Hlen : forall (n : nat) (cycle : list MotionStep) (last : MotionStep),
             length cycle = 2%nat ->
             length (step_request <$> (repeat_steps n cycle ++ [last])) = (2 * n + 1)%nat).
  { intros n cycle last Hc. rewrite length_fmap, length_app. unfold repeat_steps.
    induction n as [|n IH]; [done|].
    cbn [replicate concat length] in *. rewrite length_app. lia. }
  split; [|split].
  - rewrite (yields_outcome _ _ _ _ (nod_yes_yields 10 h)).
    rewrite (yields_trace _ _ _ _ (nod_yes_yields 10 h)). read_trace. done.
  - rewrite (yields_outcome _ _ _ _ (shake_no_yields 10 h)).
    rewrite (yields_trace _ _ _ _ (shake_no_yields 10 h)). read_trace. done.
  - intros times count.
    rewrite (yields_trace _ _ _ _ (nod_yes_yields times h)).
    rewrite (yields_trace _ _ _ _ (shake_no_yields times h)). read_trace.
    cbn [choreography_steps]. fold count.
    split; [lia|]. split; [done|]. split; [done|]. split; by apply Hlen.
Qed.

(** C7. [move_head_precise(roll=50, pitch=0, yaw=0)]: the pose sent to the
    device is built from roll 30, and the returned message reports 30. *)
Theorem move_head_precise_reports_clamped (duration : pynum) (h : list event) :
  outcome (move_head_precise (PyInt 50) (PyInt 0) (PyInt 0) duration h)
  = Ok "Moved head to roll=30, pitch=0, yaw=0"
  /\ device_calls (events (move_head_precise (PyInt 50) (PyInt 0) (PyInt 0) duration h))
     = [GotoTarget (Some (create_head_pose (PyInt 30) (PyInt 0) (PyInt 0))) None duration].
Proof.
  pose proof (move_head_precise_yields (PyInt 50) (PyInt 0) (PyInt 0) duration h) as Hrun.
  rewrite (yields_outcome _ _ _ _ Hrun), (yields_trace _ _ _ _ Hrun).
  by read_trace.
Qed.

(** C9. [move_antennas] clamps the angles after their conversion to
    radians, to the range of -1.57 to 1.57, and its message reports the
    degrees the caller gave.  The conversion is the product with pi/180
    (180 degrees are 3.14159... rad); an angle from -89.9 to 89.9 degrees
    is sent as its radians, unchanged; beyond 90 degrees the device is sent
    1.57 rad (resp. -1.57 rad), which is less than the angle the message
    reports. *)
Theorem move_antennas_reports_request (right_angle left_angle duration : pynum)
    (h : list event) :
  outcome (move_antennas right_angle left_angle duration h)
  = Ok ("Moved antennas to right=" +:+ py_str right_angle +:+ ", left="
        +:+ py_str left_angle +:+ " degrees")
  /\ device_calls (events (move_antennas right_angle left_angle duration h))
     = [GotoTarget None
          (Some [clamp (PyFloat (-1.57)) (PyFloat 1.57) (np_radians right_angle);
                 clamp (PyFloat (-1.57)) (PyFloat 1.57) (np_radians left_angle)])
          duration]
  /\ (forall angle : pynum,
        np_radians angle
        = PyFloat (num_val angle * (5030569068109113 # 288230376151711744)))
  /\ (3.14159265358979 < num_val (np_radians (PyInt 180)) < 3.14159265358980)%Q
  /\ (forall angle : pynum,
        (-89.9 <= num_val angle <= 89.9)%Q ->
        clamp (PyFloat (-1.57)) (PyFloat 1.57) (np_radians angle) = np_radians angle
        /\ (-1.57 < num_val (np_radians angle) < 1.57)%Q)
  /\ (forall angle : pynum,
        (90 < num_val angle)%Q ->
        clamp (PyFloat (-1.57)) (PyFloat 1.57) (np_radians angle) = PyFloat 1.57
        /\ (1.57 < num_val (np_radians angle))%Q)
  /\ (forall angle : pynum,
        (num_val angle < -90)%Q ->
        clamp (PyFloat (-1.57)) (PyFloat 1.57) (np_radians angle) = PyFloat (-1.57)
        /\ (num_val (np_radians angle) < -1.57)%Q).
Proof.
  pose proof (move_antennas_yields right_angle left_angle duration h) as Hrun.
  rewrite (yields_outcome _ _ _ _ Hrun), (yields_trace _ _ _ _ Hrun).
  split; [done|]. split; [by read_trace|].
  split; [done|]. split; [by vm_compute|].
  split; [|split]; intros angle Hangle.
  - assert (Hrad : (-1.57 < num_val (np_radians angle) < 1.57)%Q).
    { cbn [np_radians num_val]. unfold DEG2RAD. lra. }
    split; [|done]. apply clamp_inside; cbn [num_val]; lra.
  - assert (Hrad : (1.57 < num_val (np_radians angle))%Q).
    { cbn [np_radians num_val]. unfold DEG2RAD. lra. }
    split; [|done]. apply clamp_above; cbn [num_val] in *; lra.
  - assert (Hrad : (num_val (np_radians angle) < -1.57)%Q).
    { cbn [np_radians num_val]. unfold DEG2RAD. lra. }
    split; [|done]. apply clamp_below; cbn [num_val] in *; lra.
Qed.

(** C10. [tilt_head] tilts left only for the direction "left": every other
    direction string gives the roll [-angle], with no warning and no
    fallback to the center; the angle is clamped to the range 5..30: an
    angle of 5 or less becomes 5, an angle of 30 or more becomes 30, and an
    angle between them is kept; the returned string repeats the direction
    as the caller gave it. *)
Theorem tilt_head_not_left_is_right (direction : string) (angle : pynum)
    (h : list event) :
  let angle' := clamp (PyInt 5) (PyInt 30) angle in
  outcome (tilt_head direction angle h) = Ok ("Tilted head " +:+ direction)
  /\ warnings (events (tilt_head direction angle h)) = []
  /\ (5 <= num_val angle' <= 30)%Q
  /\ ((num_val angle <= 5)%Q -> angle' = PyInt 5)
  /\ ((5 < num_val angle < 30)%Q -> angle' = angle)
  /\ ((30 <= num_val angle)%Q -> angle' = PyInt 30)
  /\ (direction = "left" ->
      device_calls (events (tilt_head direction angle h))
      = [GotoTarget (Some (create_head_pose angle' (PyInt 0) (PyInt 0))) None (PyFloat 0.4)])
  /\ (direction <> "left" ->
      device_calls (events (tilt_head direction angle h))
      = [GotoTarget (Some (create_head_pose (py_neg angle') (PyInt 0) (PyInt 0))) None
           (PyFloat 0.4)]
      /\ (num_val (py_neg angle') == - num_val angle')%Q
      /\ (-30 <= num_val (py_neg angle') <= -5)%Q).
Proof.
  intros angle'.
  pose proof (tilt_head_yields direction angle h) as Hrun. cbv zeta in Hrun.
  rewrite (yields_outcome _ _ _ _ Hrun), (yields_trace _ _ _ _ Hrun). clear Hrun.
  fold angle'. read_trace.
  assert (Hrange : (5 <= num_val angle' <= 30)%Q).
  { apply (clamp_range (PyInt 5) (PyInt 30) angle). done. }
  split; [done|]. split; [done|]. split; [done|].
  split; [|split; [|split; [|split]]].
  - intros Hsmall. apply clamp_below; [done|exact Hsmall].
  - intros [Hlo Hhi]. apply clamp_inside; [exact Hlo|exact Hhi].
  - intros Hlarge. apply clamp_above; [done|exact Hlarge].
  - intros ->. by rewrite decide_True.
  - intros Hdir. rewrite decide_False by done. split; [done|].
    split; [apply py_neg_val|]. rewrite py_neg_val. lra.
Qed.

(** Every facade call returns a message and sends only clamped targets. *)
Lemma invoke_yields (c : facade_call) (h : list event) :
  exists msg evs,
    yields (invoke c) h msg evs
    /\ msg <> ""
    /\ Forall safe_request (device_calls evs).
Proof.
  assert (Hcenter : safe_pose (create_head_pose (PyInt 0) (PyInt 0) (PyInt 0)))
    by clamped_values.
  assert (Hzero : Forall (clamped AntennaRadians) [PyInt 0; PyInt 0]) by clamped_values.
  assert (Hplay : forall c' h', Forall safe_request
                    (device_calls (Log INFO h' :: render (h ++ [Log INFO h'])
                                                    (choreography_steps c')))).
  { intros c' h'. read_trace. apply Forall_fmap, choreography_steps_safe. }
  destruct c as [direction duration|r p y duration|right_angle left_angle duration
                |expression|times|times|direction angle| | | |emotion|style| ];
    cbn [invoke].
  - destruct (poses !! direction) as [pose|] eqn:Hp.
    + do 2 eexists. split; [by apply move_head_known|]. split; [done|].
      read_trace. apply Forall_singleton. split; [by eapply poses_safe|done].
    + do 2 eexists. split; [by apply move_head_unknown|]. split; [done|].
      read_trace. by apply Forall_singleton.
  - do 2 eexists. split; [apply move_head_precise_yields|]. split; [done|].
    read_trace. apply Forall_singleton. split; [|done].
    repeat split; apply clamped_clamp_axis.
  - do 2 eexists. split; [apply move_antennas_yields|]. split; [done|].
    read_trace. apply Forall_singleton. split; [done|].
    repeat apply Forall_cons_2; [apply clamped_clamp_axis..|apply Forall_nil_2].
  - destruct (expressions !! expression) as [antennas|] eqn:He.
    + do 2 eexists. split; [by apply antenna_expression_known|]. split; [done|].
      read_trace. apply Forall_singleton. split; [done|by eapply expressions_safe].
    + do 2 eexists. split.
      { unfold yields. rewrite (antenna_expression_unknown _ h He).
        by apply (antenna_expression_known "neutral"). }
      split; [done|]. read_trace. by apply Forall_singleton.
  - do 2 eexists. split; [apply nod_yes_yields|]. split; [done|]. apply (Hplay (Nod times)).
  - do 2 eexists. split; [apply shake_no_yields|]. split; [done|].
    apply (Hplay (Shake times)).
  - do 2 eexists. split; [apply tilt_head_yields|]. split; [done|].
    read_trace. destruct (tilt_roll_clamped angle) as [Hl Hr].
    apply Forall_singleton. split; [|done].
    split; [by destruct (decide _)|by split].
  - do 2 eexists. split; [apply look_at_camera_yields|]. split; [done|].
    read_trace. by apply Forall_singleton.
  - do 2 eexists. split; [apply wake_up_yields|]. split; [by destruct (robot _ _)|].
    destruct (robot _ _); by apply Forall_singleton.
  - do 2 eexists. split; [apply go_to_sleep_yields|]. split; [by destruct (robot _ _)|].
    destruct (robot _ _); by apply Forall_singleton.
  - destruct (emotion_methods !! emotion) as [method|] eqn:He.
    + apply emotion_methods_known in He as [e ->].
      do 2 eexists. split; [apply express_emotion_yields|]. split; [done|].
      apply (Hplay (Emotion e)).
    + do 2 eexists. split; [by apply express_emotion_unknown|]. split; [done|].
      apply Forall_nil_2.
  - do 2 eexists. split; [apply do_dance_yields|]. split; [done|].
    apply (Hplay (Dance style)).
  - do 2 eexists. split; [apply reset_position_yields|]. split; [done|].
    read_trace. by apply Forall_singleton.
Qed.

(** What the Safety Clamp leaves unchanged is within its bounds. *)
Lemma safe_request_within_limits (rq : device_request) :
  safe_request rq -> request_within_limits rq.
Proof.
  destruct rq as [[p|] [l|] duration| |]; cbn [safe_request request_within_limits];
    try done; intros [Hp Hl]; (split; [|]); try done.
  - destruct Hp as (H1 & H2 & H3).
    exact (conj (clamped_in_range HeadRoll _ H1)
             (conj (clamped_in_range HeadPitch _ H2) (clamped_in_range HeadYaw _ H3))).
  - eapply Forall_impl; [exact Hl|]. intros v Hv. exact (clamped_in_range AntennaRadians v Hv).
  - destruct Hp as (H1 & H2 & H3).
    exact (conj (clamped_in_range HeadRoll _ H1)
             (conj (clamped_in_range HeadPitch _ H2) (clamped_in_range HeadYaw _ H3))).
  - eapply Forall_impl; [exact Hl|]. intros v Hv. exact (clamped_in_range AntennaRadians v Hv).
Qed.

(** C2 (amended). Whatever facade operation is called, with whatever
    arguments and on whatever device, every head orientation of every
    device call it issues has its roll and its pitch from -30 to 30 degrees
    and its yaw from -45 to 45 degrees, and every antenna state is from
    -1.57 to 1.57 rad; each of these values is one the Safety Clamp of its
    axis leaves unchanged.  [move_head_precise] and [move_antennas] send
    what the clamp makes of the angles of the caller; the presets and the
    choreographies send constants that no clamp is applied to. *)
Theorem device_targets_are_clamped (c : facade_call) (h : list event) :
  Forall request_within_limits (device_calls (events (invoke c h)))
  /\ Forall safe_request (device_calls (events (invoke c h)))
  /\ (forall r p y duration : pynum,
        device_calls (events (move_head_precise r p y duration h))
        = [GotoTarget
             (Some (create_head_pose (clamp (PyInt (-30)) (PyInt 30) r)
                      (clamp (PyInt (-30)) (PyInt 30) p)
                      (clamp (PyInt (-45)) (PyInt 45) y)))
             None duration])
  /\ (forall right_angle left_angle duration : pynum,
        device_calls (events (move_antennas right_angle left_angle duration h))
        = [GotoTarget None
             (Some [clamp (PyFloat (-1.57)) (PyFloat 1.57) (np_radians right_angle);
                    clamp (PyFloat (-1.57)) (PyFloat 1.57) (np_radians left_angle)])
             duration]).
Proof.
  destruct (invoke_yields c h) as (msg & evs & Hrun & _ & Hsafe).
  rewrite (yields_trace _ _ _ _ Hrun).
  split; [|split; [done|split]].
  - eapply Forall_impl; [exact Hsafe|]. apply safe_request_within_limits.
  - intros r p y duration.
    rewrite (yields_trace _ _ _ _ (move_head_precise_yields r p y duration h)).
    by read_trace.
  - intros right_angle left_angle duration.
    rewrite (yields_trace _ _ _ _ (move_antennas_yields right_angle left_angle duration h)).
    by read_trace.
Qed.

(** With an [int] for the count, the gestures on any number are the
    gestures. *)
Lemma nod_yes_untyped_int (times : Z) (h : list event) :
  nod_yes_untyped (PyInt times) h = nod_yes times h.
Proof.
  unfold nod_yes_untyped, nod_yes. cbv zeta.
  change (py_max (PyInt 1) (py_min (PyInt 5) (PyInt times)))
    with (clamp (PyInt 1) (PyInt 5) (PyInt times)).
  rewrite clamp_int. cbn [py_str py_range].
  apply bind_ext. intros _ h'. apply (bind_ret_l (Z.to_nat (Z.max 1 (Z.min 5 times)))).
Qed.

Lemma shake_no_untyped_int (times : Z) (h : list event) :
  shake_no_untyped (PyInt times) h = shake_no times h.
Proof.
  unfold shake_no_untyped, shake_no. cbv zeta.
  change (py_max (PyInt 1) (py_min (PyInt 5) (PyInt times)))
    with (clamp (PyInt 1) (PyInt 5) (PyInt times)).
  rewrite clamp_int. cbn [py_str py_range].
  apply bind_ext. intros _ h'. apply (bind_ret_l (Z.to_nat (Z.max 1 (Z.min 5 times)))).
Qed.

(** The gestures on any number depend on the count through its clamp. *)
Lemma nod_yes_untyped_clamp (x y : pynum) (h : list event) :
  clamp (PyInt 1) (PyInt 5) x = clamp (PyInt 1) (PyInt 5) y ->
  nod_yes_untyped x h = nod_yes_untyped y h.
Proof. unfold nod_yes_untyped, clamp. cbv zeta. by intros ->. Qed.

Lemma shake_no_untyped_clamp (x y : pynum) (h : list event) :
  clamp (PyInt 1) (PyInt 5) x = clamp (PyInt 1) (PyInt 5) y ->
  shake_no_untyped x h = shake_no_untyped y h.
Proof. unfold shake_no_untyped, clamp. cbv zeta. by intros ->. Qed.

(** A count that is a [float] strictly between 1 and 5 is left a [float]
    by [max] and [min], and [range] raises on it, after the line of the
    log and before any device call. *)
Lemma nod_yes_untyped_float (q : Q) (h : list event) :
  (1 < q < 5)%Q ->
  nod_yes_untyped (PyFloat q) h
  = (Raise (TypeError "'float' object cannot be interpreted as an integer"),
     [Log INFO ("Nodding yes " +:+ float_repr q +:+ " times")]).
Proof.
  intros [Hlo Hhi]. unfold nod_yes_untyped. cbv zeta.
  change (py_max (PyInt 1) (py_min (PyInt 5) (PyFloat q)))
    with (clamp (PyInt 1) (PyInt 5) (PyFloat q)).
  by rewrite clamp_inside.
Qed.

Lemma shake_no_untyped_float (q : Q) (h : list event) :
  (1 < q < 5)%Q ->
  shake_no_untyped (PyFloat q) h
  = (Raise (TypeError "'float' object cannot be interpreted as an integer"),
     [Log INFO ("Shaking no " +:+ float_repr q +:+ " times")]).
Proof.
  intros [Hlo Hhi]. unfold shake_no_untyped. cbv zeta.
  change (py_max (PyInt 1) (py_min (PyInt 5) (PyFloat q)))
    with (clamp (PyInt 1) (PyInt 5) (PyFloat q)).
  by rewrite clamp_inside.
Qed.


(** ** Further properties of the controller *)

(** X1. The Safety Clamp keeps the order of its inputs: saturating two
    requests never swaps them. *)
Theorem clamp_monotone (lo hi x y : pynum) :
  (num_val x <= num_val y)%Q ->
  (num_val (clamp lo hi x) <= num_val (clamp lo hi y))%Q.
Proof.
  intros Hxy. unfold clamp, py_max, py_min.
  repeat (match goal with
          | |- context [py_lt ?a ?b] => is_var a; is_var b; destruct (py_lt_spec a b)
          end);
    lra.
Qed.

(** X2. Angles strictly inside the ranges of [move_head_precise] reach the
    device as the caller gave them, and the message reports them. *)
Theorem move_head_precise_in_range (r p y duration : pynum) (h : list event) :
  (-30 < num_val r < 30)%Q ->
  (-30 < num_val p < 30)%Q ->
  (-45 < num_val y < 45)%Q ->
  outcome (move_head_precise r p y duration h)
  = Ok ("Moved head to roll=" +:+ py_str r +:+ ", pitch=" +:+ py_str p
        +:+ ", yaw=" +:+ py_str y)
  /\ device_calls (events (move_head_precise r p y duration h))
     = [GotoTarget (Some (create_head_pose r p y)) None duration].
Proof.
  intros Hr Hp Hy.
  pose proof (move_head_precise_yields r p y duration h) as Hrun. cbv zeta in Hrun.
  unfold clamp_axis in Hrun. cbn [axis_min axis_max] in Hrun.
  rewrite !clamp_inside in Hrun by (cbn [num_val]; unfold inject_Z; lra).
  rewrite (yields_outcome _ _ _ _ Hrun), (yields_trace _ _ _ _ Hrun).
  by read_trace.
Qed.


Lemma goto_events_errors h rq :
  errors (goto_events h rq)
  = (fun e => "Motion error: " +:+ exn_str e) <$> failures (goto_events h rq).
Proof. unfold goto_events. by destruct (robot h rq). Qed.

Lemma errors_info msg evs : errors (Log INFO msg :: evs) = errors evs.
Proof. reflexivity. Qed.

Lemma errors_warning msg evs : errors (Log WARNING msg :: evs) = errors evs.
Proof. reflexivity. Qed.

Lemma failures_log lvl msg evs : failures (Log lvl msg :: evs) = failures evs.
Proof. reflexivity. Qed.

Ltac read_errors :=
  repeat first
    [ rewrite errors_info
    | rewrite errors_warning
    | rewrite failures_log
    | rewrite goto_events_errors
    | rewrite render_errors ].

(** X3. Every failed device call leaves exactly one line at ERROR level, in
    every facade operation: the ERROR lines of a call are, in order, its
    failures, each rendered after the prefix of the command. *)
Theorem every_failure_is_logged (c : facade_call) (h : list event) :
  errors (events (invoke c h))
  = (fun e => error_prefix c +:+ exn_str e) <$> failures (events (invoke c h)).
Proof.
  destruct c as [direction duration|r p y duration|right_angle left_angle duration
                |expression|times|times|direction angle| | | |emotion|style| ];
    cbn [invoke error_prefix].
  - destruct (poses !! direction) as [pose|] eqn:Hp.
    + rewrite (yields_trace _ _ _ _ (move_head_known _ _ duration h Hp)). by read_errors.
    + rewrite (yields_trace _ _ _ _ (move_head_unknown _ duration h Hp)). by read_errors.
  - rewrite (yields_trace _ _ _ _ (move_head_precise_yields r p y duration h)).
    by read_errors.
  - rewrite (yields_trace _ _ _ _ (move_antennas_yields right_angle left_angle duration h)).
    by read_errors.
  - destruct (expressions !! expression) as [antennas|] eqn:He.
    + rewrite (yields_trace _ _ _ _ (antenna_expression_known _ _ h He)). by read_errors.
    + rewrite (antenna_expression_unknown _ h He).
      rewrite (yields_trace _ _ _ _ (antenna_expression_known "neutral" _ h eq_refl)).
      by read_errors.
  - rewrite (yields_trace _ _ _ _ (nod_yes_yields times h)). by read_errors.
  - rewrite (yields_trace _ _ _ _ (shake_no_yields times h)). by read_errors.
  - rewrite (yields_trace _ _ _ _ (tilt_head_yields direction angle h)). by read_errors.
  - rewrite (yields_trace _ _ _ _ (look_at_camera_yields h)). by read_errors.
  - rewrite (yields_trace _ _ _ _ (wake_up_yields h)). by destruct (robot _ _).
  - rewrite (yields_trace _ _ _ _ (go_to_sleep_yields h)). by destruct (robot _ _).
  - destruct (emotion_methods !! emotion) as [method|] eqn:He.
    + apply emotion_methods_known in He as [e ->].
      rewrite (yields_trace _ _ _ _ (express_emotion_yields e h)). by read_errors.
    + by rewrite (yields_trace _ _ _ _ (express_emotion_unknown _ h He)).
  - rewrite (yields_trace _ _ _ _ (do_dance_yields style h)). by read_errors.
  - rewrite (yields_trace _ _ _ _ (reset_position_yields h)). by read_errors.
Qed.

(** X4. [nod_yes], [shake_no] and [do_dance] leave the head centered: on
    any device and for any argument their last device call is the center
    pose, and [do_dance] also returns the antennas to [0, 0]. *)
Theorem gestures_end_at_center (times : Z) (style : string) (h : list event) :
  let center := create_head_pose (PyInt 0) (PyInt 0) (PyInt 0) in
  last (device_calls (events (nod_yes times h)))
  = Some (GotoTarget (Some center) None (PyFloat 0.2))
  /\ last (device_calls (events (shake_no times h)))
     = Some (GotoTarget (Some center) None (PyFloat 0.2))
  /\ last (device_calls (events (do_dance style h)))
     = Some (GotoTarget (Some center) (Some [PyInt 0; PyInt 0]) (PyFloat 0.25)).
Proof.
  intros center.
  rewrite (yields_trace _ _ _ _ (nod_yes_yields times h)).
  rewrite (yields_trace _ _ _ _ (shake_no_yields times h)).
  rewrite (yields_trace _ _ _ _ (do_dance_yields style h)).
  read_trace. cbn [choreography_steps]. rewrite !fmap_app. cbn [fmap list_fmap].
  by rewrite !last_snoc.
Qed.

(** X5. The lifecycle commands tell the caller what the device did: they
    issue the one lifecycle call and nothing else, return the success
    message exactly when that call succeeded, and otherwise return and log
    the text of the failure. *)
Theorem lifecycle_reports_device (h : list event) :
  (device_calls (events (wake_up h)) = [WakeUp]
   /\ ((failures (events (wake_up h)) = []
        /\ outcome (wake_up h) = Ok "Woke up and ready!"
        /\ errors (events (wake_up h)) = [])
       \/ exists e,
            failures (events (wake_up h)) = [e]
            /\ outcome (wake_up h) = Ok ("Wake up failed: " +:+ exn_str e)
            /\ errors (events (wake_up h)) = ["Wake up error: " +:+ exn_str e]))
  /\ (device_calls (events (go_to_sleep h)) = [GotoSleep]
      /\ ((failures (events (go_to_sleep h)) = []
           /\ outcome (go_to_sleep h) = Ok "Going to sleep..."
           /\ errors (events (go_to_sleep h)) = [])
          \/ exists e,
               failures (events (go_to_sleep h)) = [e]
               /\ outcome (go_to_sleep h) = Ok ("Sleep failed: " +:+ exn_str e)
               /\ errors (events (go_to_sleep h)) = ["Sleep error: " +:+ exn_str e])).
Proof.
  rewrite (yields_outcome _ _ _ _ (wake_up_yields h)).
  rewrite (yields_trace _ _ _ _ (wake_up_yields h)).
  rewrite (yields_outcome _ _ _ _ (go_to_sleep_yields h)).
  rewrite (yields_trace _ _ _ _ (go_to_sleep_yields h)).
  split.
  - destruct (robot _ WakeUp) as [e|]; (split; [done|]); [right; by exists e|by left].
  - destruct (robot _ GotoSleep) as [e|]; (split; [done|]); [right; by exists e|by left].
Qed.

(** X6. Antenna angles from -89.9 to 89.9 degrees reach the device as
    their conversion to radians, unclamped; the documented extremes of 90
    and -90 degrees are already saturated, to 1.57 and -1.57 rad. *)
Theorem move_antennas_in_range (right_angle left_angle duration : pynum)
    (h : list event) :
  (-89.9 <= num_val right_angle <= 89.9)%Q ->
  (-89.9 <= num_val left_angle <= 89.9)%Q ->
  device_calls (events (move_antennas right_angle left_angle duration h))
  = [GotoTarget None (Some [np_radians right_angle; np_radians left_angle]) duration]
  /\ device_calls (events (move_antennas (PyInt 90) (PyInt (-90)) duration h))
     = [GotoTarget None (Some [PyFloat 1.57; PyFloat (-1.57)]) duration]
  /\ (1.57 < num_val (np_radians (PyInt 90)))%Q.
Proof.
  intros Hr Hl.
  rewrite !(yields_trace _ _ _ _ (move_antennas_yields _ _ duration h)).
  read_trace. split; [|split; [done|by vm_compute]].
  unfold clamp_axis. cbn [axis_min axis_max].
  rewrite !clamp_inside; [done|..];
    cbn [np_radians num_val]; unfold DEG2RAD; lra.
Qed.

(** X7. A documented direction is never redirected: [move_head] logs no
    warning, reports the direction it was given, keeps the roll at 0, and
    sends the center pose only for "center". *)
Theorem move_head_documented (direction : string) (duration : pynum) (h : list event) :
  direction ∈ directions ->
  outcome (move_head direction duration h) = Ok ("Moved head " +:+ direction)
  /\ warnings (events (move_head direction duration h)) = []
  /\ exists pose,
       device_calls (events (move_head direction duration h))
       = [GotoTarget (Some pose) None duration]
       /\ roll pose = PyInt 0
       /\ (pose = create_head_pose (PyInt 0) (PyInt 0) (PyInt 0) <-> direction = "center").
Proof.
  intros Hin.
  assert (Hcases : exists p, poses !! direction = Some p
            /\ p.1.1 = PyInt 0
            /\ (create_head_pose p.1.1 p.1.2 p.2
                = create_head_pose (PyInt 0) (PyInt 0) (PyInt 0) <-> direction = "center")).
  { unfold directions in Hin.
    repeat (apply elem_of_cons in Hin as [->|Hin];
            [eexists; split; [reflexivity|]; split; [reflexivity|]; by split|]).
    by apply elem_of_nil in Hin. }
  destruct Hcases as (p & Hp & Hroll & Hcenter).
  rewrite (yields_outcome _ _ _ _ (move_head_known _ _ duration h Hp)).
  rewrite (yields_trace _ _ _ _ (move_head_known _ _ duration h Hp)).
  read_trace. split; [done|]. split; [done|]. by eexists.
Qed.

Lemma commanded_seconds_app (l1 l2 : list event) :
  (commanded_seconds (l1 ++ l2) == commanded_seconds l1 + commanded_seconds l2)%Q.
Proof.
  unfold commanded_seconds. induction l1 as [|ev l1 IH]; cbn [app foldr]; lra.
Qed.

Lemma commanded_seconds_log lvl msg (evs : list event) :
  (commanded_seconds (Log lvl msg :: evs) == commanded_seconds evs)%Q.
Proof. unfold commanded_seconds. cbn [foldr event_seconds]. lra. Qed.

Lemma step_events_seconds h s : (commanded_seconds (step_events h s) == step_seconds s)%Q.
Proof.
  unfold step_events, goto_events, step_seconds, step_request.
  unfold commanded_seconds.
  destruct (robot h _), (postDelay s); cbn [app foldr event_seconds]; lra.
Qed.

Lemma render_seconds h steps : (commanded_seconds (render h steps) == steps_seconds steps)%Q.
Proof.
  revert h. induction steps as [|s rest IH]; intros h; [done|].
  cbn [render]. rewrite commanded_seconds_app, IH, step_events_seconds.
  unfold steps_seconds. cbn [foldr]. lra.
Qed.

Lemma steps_seconds_app (s1 s2 : list MotionStep) :
  (steps_seconds (s1 ++ s2) == steps_seconds s1 + steps_seconds s2)%Q.
Proof.
  unfold steps_seconds. induction s1 as [|s s1 IH]; cbn [app foldr]; lra.
Qed.

Lemma steps_seconds_repeat (count : nat) (cycle : list MotionStep) :
  (steps_seconds (repeat_steps count cycle)
   == inject_Z (Z.of_nat count) * steps_seconds cycle)%Q.
Proof.
  unfold repeat_steps. induction count as [|n IH].
  - change (Z.of_nat 0) with 0%Z. cbn [replicate concat steps_seconds foldr].
    unfold inject_Z. lra.
  - cbn [replicate concat]. rewrite steps_seconds_app, IH.
    rewrite Nat2Z.inj_succ. unfold Z.succ. rewrite inject_Z_plus.
    change (inject_Z 1) with 1%Q. ring.
Qed.

(** X8. The nominal length of every choreography is bounded: whatever the
    repeat count, the style and the device, the durations and pauses it
    asks for add up to at most 2.7 seconds; [nod_yes] takes half a second
    per nod and [shake_no] 0.4 s per shake, plus 0.2 s for the reset. *)
Theorem choreography_time_bounded (c : choreography) (h : list event) :
  (commanded_seconds (events (invoke (choreography_call c) h)) <= 2.7)%Q
  /\ (forall times : Z,
        commanded_seconds (events (nod_yes times h))
        == 0.5 * inject_Z (Z.max 1 (Z.min 5 times)) + 0.2)%Q
  /\ (forall times : Z,
        commanded_seconds (events (shake_no times h))
        == 0.4 * inject_Z (Z.max 1 (Z.min 5 times)) + 0.2)%Q.
Proof.
  assert (Hrun : forall c' : choreography,
             (commanded_seconds (events (invoke (choreography_call c') h))
              == steps_seconds (choreography_steps c'))%Q).
  { intros c'. destruct (choreography_yields c' h) as (msg & info & _ & Hrun).
    rewrite (yields_trace _ _ _ _ Hrun).
    by rewrite commanded_seconds_log, render_seconds. }
  assert (Hcount : forall times : Z,
             (inject_Z (Z.of_nat (Z.to_nat (Z.max 1 (Z.min 5 times))))
              == inject_Z (Z.max 1 (Z.min 5 times)))%Q
             /\ (1 <= inject_Z (Z.max 1 (Z.min 5 times)) <= 5)%Q).
  { intros times. rewrite Z2Nat.id by lia. split; [done|].
    change 1%Q with (inject_Z 1). change 5%Q with (inject_Z 5).
    rewrite <- !Zle_Qle. lia. }
  assert (Hnod : forall times : Z,
             (steps_seconds (choreography_steps (Nod times))
              == 0.5 * inject_Z (Z.max 1 (Z.min 5 times)) + 0.2)%Q).
  { intros times. cbn [choreography_steps].
    rewrite steps_seconds_app, steps_seconds_repeat, (proj1 (Hcount times)).
    vm_compute (steps_seconds nod_cycle). vm_compute (steps_seconds [_]). lra. }
  assert (Hshake : forall times : Z,
             (steps_seconds (choreography_steps (Shake times))
              == 0.4 * inject_Z (Z.max 1 (Z.min 5 times)) + 0.2)%Q).
  { intros times. cbn [choreography_steps].
    rewrite steps_seconds_app, steps_seconds_repeat, (proj1 (Hcount times)).
    vm_compute (steps_seconds shake_cycle). vm_compute (steps_seconds [_]). lra. }
  split; [|split].
  - rewrite Hrun. destruct c as [times|times|e|style].
    + rewrite Hnod. destruct (Hcount times) as [_ ?]. lra.
    + rewrite Hshake. destruct (Hcount times) as [_ ?]. lra.
    + destruct e; by vm_compute.
    + cbn [choreography_steps]. destruct (decide (style = "silly")); by vm_compute.
  - intros times. pose proof (Hrun (Nod times)) as H. cbn [choreography_call invoke] in H.
    by rewrite H, Hnod.
  - intros times. pose proof (Hrun (Shake times)) as H. cbn [choreography_call invoke] in H.
    by rewrite H, Hshake.
Qed.
End MovementController.

(** * The controller on concrete devices *)

(** The scenarios of the specification. *)

Example move_head_left :
  move_head robot_ok "left" (PyFloat 0.5) []
  = (Ok "Moved head left",
     [ Log INFO "Moving head left";
       Call (GotoTarget (Some (create_head_pose (PyInt 0) (PyInt 0) (PyInt 25))) None
               (PyFloat 0.5));
       Return None ]).
Proof. vm_compute. reflexivity. Qed.

Example antenna_expression_nonexistent :
  antenna_expression robot_ok "nonexistent" []
  = (Ok "Set antennas to neutral",
     [ Log INFO "Setting antenna expression: neutral";
       Call (GotoTarget None (Some [PyInt 0; PyInt 0]) (PyFloat 0.3));
       Return None ]).
Proof. vm_compute. reflexivity. Qed.

Example express_emotion_happy :
  express_emotion robot_ok "happy" []
  = (Ok "Expressed happy",
     [ Log INFO "Expressing emotion: happy";
       Call (GotoTarget (Some (create_head_pose (PyInt 15) (PyInt 0) (PyInt 0)))
               (Some [PyFloat 0.5; PyFloat (-0.5)]) (PyFloat 0.2));
       Return None;
       Sleep (PyFloat 0.15);
       Call (GotoTarget (Some (create_head_pose (PyInt (-15)) (PyInt 0) (PyInt 0)))
               (Some [PyFloat (-0.5); PyFloat 0.5]) (PyFloat 0.2));
       Return None;
       Sleep (PyFloat 0.15);
       Call (GotoTarget (Some (create_head_pose (PyInt 0) (PyInt 0) (PyInt 0)))
               (Some [PyFloat 0.3; PyFloat (-0.3)]) (PyFloat 0.2));
       Return None ]).
Proof. vm_compute. reflexivity. Qed.

(** The second of the three steps of "happy" fails: the failure is logged
    and the third step is played all the same. *)
Example happy_second_step_fails :
  express_emotion robot_second_fails "happy" []
  = (Ok "Expressed happy",
     [ Log INFO "Expressing emotion: happy";
       Call (GotoTarget (Some (create_head_pose (PyInt 15) (PyInt 0) (PyInt 0)))
               (Some [PyFloat 0.5; PyFloat (-0.5)]) (PyFloat 0.2));
       Return None;
       Sleep (PyFloat 0.15);
       Call (GotoTarget (Some (create_head_pose (PyInt (-15)) (PyInt 0) (PyInt 0)))
               (Some [PyFloat (-0.5); PyFloat 0.5]) (PyFloat 0.2));
       Return (Some (DeviceError "actuator fault"));
       Log ERROR "Motion error: actuator fault";
       Sleep (PyFloat 0.15);
       Call (GotoTarget (Some (create_head_pose (PyInt 0) (PyInt 0) (PyInt 0)))
               (Some [PyFloat 0.3; PyFloat (-0.3)]) (PyFloat 0.2));
       Return None ]).
Proof. vm_compute. reflexivity. Qed.

(** On a device that cannot be reached the lifecycle calls report the
    failure as text, and a gesture completes having moved nothing. *)
Example wake_up_device_down :
  wake_up robot_down []
  = (Ok "Wake up failed: connection lost",
     [ Log INFO "Performing wake up animation";
       Call WakeUp;
       Return (Some (DeviceError "connection lost"));
       Log ERROR "Wake up error: connection lost" ]).
Proof. vm_compute. reflexivity. Qed.

Example nod_yes_device_down :
  outcome (nod_yes robot_down 1 []) = Ok "Nodded yes 1 times"
  /\ length (device_calls (events (nod_yes robot_down 1 []))) = 3%nat
  /\ length (failures (events (nod_yes robot_down 1 []))) = 3%nat.
Proof. vm_compute. done. Qed.

Example move_head_precise_float :
  outcome (move_head_precise robot_ok ratio_repr (PyFloat 50.0) (PyInt 0) (PyInt 0)
             (PyFloat 0.5) [])
  = Ok "Moved head to roll=30, pitch=0, yaw=0".
Proof. vm_compute. reflexivity. Qed.

(** C1, counterexample.  "bored" is no emotion of the table: the call
    issues no device call, while every emotion of the table issues some, so
    what it does is the behaviour of no default variant; and the fallback
    of [antenna_expression "nonexistent"] leaves no warning in the log. *)
Lemma unknown_emotion_has_no_default :
("bored" ∉ emotion_names)
  /\ express_emotion robot_ok "bored" []
     = (Ok "Unknown emotion: bored",
        [ Log INFO "Expressing emotion: bored"; Log WARNING "Unknown emotion: bored" ])
  /\ device_calls (events (express_emotion robot_ok "bored" [])) = []
  /\ (forall e : emotion,
        device_calls (events (express_emotion robot_ok (emotion_name e) [])) <> [])
  /\ ("nonexistent" ∉ expression_names)
  /\ warnings (events (antenna_expression robot_ok "nonexistent" [])) = []
  /\ antenna_expression robot_ok "nonexistent" [] = antenna_expression robot_ok "neutral" [].
Proof.
  split; [compute_done|]. split; [by vm_compute|]. split; [by vm_compute|].
  split; [by intros []; vm_compute|]. split; [compute_done|].
  split; by vm_compute.
Qed.

(** C1, witness: the name "sideways" is in none of the four tables. *)
Lemma unknown_name_fallback_witness :
  (outcome (move_head robot_ok "sideways" (PyFloat 0.5) []) = Ok "Moved head center"
   /\ warnings (events (move_head robot_ok "sideways" (PyFloat 0.5) []))
      = ["Unknown direction: sideways, using center"])
  /\ outcome (antenna_expression robot_ok "sideways" []) = Ok "Set antennas to neutral"
  /\ (outcome (express_emotion robot_ok "sideways" []) = Ok "Unknown emotion: sideways"
      /\ device_calls (events (express_emotion robot_ok "sideways" [])) = [])
  /\ outcome (do_dance robot_ok "sideways" []) = Ok "Finished sideways dance".
Proof.
  destruct (unknown_name_fallback robot_ok "sideways" (PyFloat 0.5) [])
    as (Hdirection & Hexpression & Hemotion & Hstyle).
  split; [|split; [|split]].
  - destruct Hdirection as (H1 & _ & _ & H2); [compute_done|]. by split.
  - destruct Hexpression as (H1 & _); [compute_done|]. exact H1.
  - destruct Hemotion as (H1 & H2 & _); [compute_done|]. by split.
  - destruct Hstyle as (H1 & _); [compute_done|]. exact H1.
Defined.

(** C9, witness: 120 and -100 degrees, and 45 and -30 degrees. *)
Lemma move_antennas_reports_request_witness :
  outcome (move_antennas robot_ok ratio_repr (PyInt 120) (PyInt (-100)) (PyFloat 0.3) [])
  = Ok "Moved antennas to right=120, left=-100 degrees"
  /\ device_calls (events (move_antennas robot_ok ratio_repr (PyInt 120) (PyInt (-100))
                             (PyFloat 0.3) []))
     = [GotoTarget None (Some [PyFloat 1.57; PyFloat (-1.57)]) (PyFloat 0.3)]
  /\ (1.57 < num_val (np_radians (PyInt 120)))%Q
  /\ (num_val (np_radians (PyInt (-100))) < -1.57)%Q
  /\ device_calls (events (move_antennas robot_ok ratio_repr (PyInt 45) (PyInt (-30))
                             (PyFloat 0.3) []))
     = [GotoTarget None
          (Some [PyFloat (226375608064910085 # 288230376151711744);
                 PyFloat (-150917072043273390 # 288230376151711744)])
          (PyFloat 0.3)]
  /\ (0.7853981 < 226375608064910085 # 288230376151711744 < 0.7853982)%Q
  /\ (-0.5235988 < -150917072043273390 # 288230376151711744 < -0.5235987)%Q.
Proof.
  destruct (move_antennas_reports_request robot_ok ratio_repr (PyInt 120) (PyInt (-100))
              (PyFloat 0.3) []) as (Hmsg & Hcalls & _ & _ & _ & Hhigh & Hlow).
  destruct (move_antennas_reports_request robot_ok ratio_repr (PyInt 45) (PyInt (-30))
              (PyFloat 0.3) []) as (_ & Hcalls' & Hconv & _ & Hin & _ & _).
  destruct (Hhigh (PyInt 120)) as [Hr Hr']; [by vm_compute|].
  destruct (Hlow (PyInt (-100))) as [Hl Hl']; [by vm_compute|].
  destruct (Hin (PyInt 45)) as [Hr45 _]; [by vm_compute|].
  destruct (Hin (PyInt (-30))) as [Hl30 _]; [by vm_compute|].
  split; [exact Hmsg|]. split; [by rewrite Hcalls, Hr, Hl|].
  split; [exact Hr'|]. split; [exact Hl'|].
  split; [|by vm_compute].
  rewrite Hcalls', Hr45, Hl30, !Hconv. reflexivity.
Defined.

(** C10, witness: the direction "up" with the angles 2, 20 and 45, and the
    direction "left" with the angles 2 and 20. *)
Lemma tilt_head_not_left_is_right_witness :
  outcome (tilt_head robot_ok ratio_repr "up" (PyInt 2) []) = Ok "Tilted head up"
  /\ clamp (PyInt 5) (PyInt 30) (PyInt 2) = PyInt 5
  /\ device_calls (events (tilt_head robot_ok ratio_repr "up" (PyInt 2) []))
     = [GotoTarget (Some (create_head_pose (PyInt (-5)) (PyInt 0) (PyInt 0))) None
          (PyFloat 0.4)]
  /\ device_calls (events (tilt_head robot_ok ratio_repr "left" (PyInt 2) []))
     = [GotoTarget (Some (create_head_pose (PyInt 5) (PyInt 0) (PyInt 0))) None
          (PyFloat 0.4)]
  /\ device_calls (events (tilt_head robot_ok ratio_repr "left" (PyInt 20) []))
     = [GotoTarget (Some (create_head_pose (PyInt 20) (PyInt 0) (PyInt 0))) None
          (PyFloat 0.4)]
  /\ device_calls (events (tilt_head robot_ok ratio_repr "up" (PyInt 20) []))
     = [GotoTarget (Some (create_head_pose (PyInt (-20)) (PyInt 0) (PyInt 0))) None
          (PyFloat 0.4)]
  /\ device_calls (events (tilt_head robot_ok ratio_repr "up" (PyInt 45) []))
     = [GotoTarget (Some (create_head_pose (PyInt (-30)) (PyInt 0) (PyInt 0))) None
          (PyFloat 0.4)].
Proof.
  pose proof (tilt_head_not_left_is_right robot_ok ratio_repr "up" (PyInt 2) []) as Hup.
  pose proof (tilt_head_not_left_is_right robot_ok ratio_repr "left" (PyInt 2) []) as Hleft.
  pose proof (tilt_head_not_left_is_right robot_ok ratio_repr "left" (PyInt 20) []) as Hleft20.
  pose proof (tilt_head_not_left_is_right robot_ok ratio_repr "up" (PyInt 20) []) as Hup20.
  pose proof (tilt_head_not_left_is_right robot_ok ratio_repr "up" (PyInt 45) []) as Hup45.
  cbv zeta in Hup, Hleft, Hleft20, Hup20, Hup45.
  destruct Hup as (Hmsg & _ & _ & Hsmall & _ & _ & _ & Hright).
  destruct Hleft as (_ & _ & _ & _ & _ & _ & Hl & _).
  destruct Hleft20 as (_ & _ & _ & _ & Hkept & _ & Hl20 & _).
  destruct Hup20 as (_ & _ & _ & _ & _ & _ & _ & Hr20).
  destruct Hup45 as (_ & _ & _ & _ & _ & Hlarge & _ & Hr45).
  specialize (Hsmall ltac:(by vm_compute)).
  specialize (Hkept ltac:(by vm_compute)).
  specialize (Hlarge ltac:(by vm_compute)).
  destruct Hright as [Hcalls _]; [discriminate|].
  destruct Hr20 as [Hcalls20 _]; [discriminate|].
  destruct Hr45 as [Hcalls45 _]; [discriminate|].
  specialize (Hl eq_refl). specialize (Hl20 eq_refl).
  rewrite Hsmall in Hcalls, Hl. rewrite Hkept in Hcalls20, Hl20. rewrite Hlarge in Hcalls45.
  split; [exact Hmsg|]. split; [exact Hsmall|].
  split; [exact Hcalls|]. split; [exact Hl|]. split; [exact Hl20|].
  split; [exact Hcalls20|exact Hcalls45].
Defined.

(** C2, counterexample.  [move_head] is [move_head_over] on its table, and
    between the table and the device there is no clamp: the yaw of "left"
    reaches the device as the table has it, and so would a yaw of 1000,
    which the Safety Clamp would have made 45. *)
Lemma move_head_applies_no_clamp :
  (forall (robot : Robot) direction duration h,
     move_head robot direction duration h
     = move_head_over robot poses direction duration h)
  /\ poses !! "left" = Some (PyInt 0, PyInt 0, PyInt 25)
  /\ device_calls (events (move_head robot_ok "left" (PyFloat 0.5) []))
     = [GotoTarget (Some (create_head_pose (PyInt 0) (PyInt 0) (PyInt 25))) None
          (PyFloat 0.5)]
  /\ device_calls
       (events (move_head_over robot_ok {[ "left" := (PyInt 0, PyInt 0, PyInt 1000) ]}
                  "left" (PyFloat 0.5) []))
     = [GotoTarget (Some (create_head_pose (PyInt 0) (PyInt 0) (PyInt 1000))) None
          (PyFloat 0.5)]
  /\ clamp_axis HeadYaw (PyInt 1000) = PyInt 45.
Proof.
  split; [done|]. split; [done|]. split; [by vm_compute|]. split; by vm_compute.
Qed.



(** * The controller does not react to the device *)

Ltac read_calls :=
  repeat first
    [ rewrite device_calls_log
    | rewrite goto_events_device_calls
    | rewrite render_device_calls ].

(** What a facade call asks of the device and what it returns, compared
    with the same call on the device that never fails. *)
Lemma invoke_like_robot_ok (robot : Robot) (float_repr : Q -> string) (c : facade_call)
    (h : list event) :
  device_calls (events (invoke robot float_repr c h))
  = device_calls (events (invoke robot_ok float_repr c []))
  /\ (c <> DoWakeUp -> c <> DoGoToSleep ->
      outcome (invoke robot float_repr c h) = outcome (invoke robot_ok float_repr c [])).
Proof.
  destruct c as [direction duration|r p y duration|right_angle left_angle duration
                |expression|times|times|direction angle| | | |emotion|style| ];
    cbn [invoke].
  - destruct (poses !! direction) as [pose|] eqn:Hp.
    + rewrite (yields_trace _ _ _ _ (move_head_known robot _ _ duration h Hp)).
      rewrite (yields_trace _ _ _ _ (move_head_known robot_ok _ _ duration [] Hp)).
      rewrite (yields_outcome _ _ _ _ (move_head_known robot _ _ duration h Hp)).
      rewrite (yields_outcome _ _ _ _ (move_head_known robot_ok _ _ duration [] Hp)).
      by read_calls.
    + rewrite (yields_trace _ _ _ _ (move_head_unknown robot _ duration h Hp)).
      rewrite (yields_trace _ _ _ _ (move_head_unknown robot_ok _ duration [] Hp)).
      rewrite (yields_outcome _ _ _ _ (move_head_unknown robot _ duration h Hp)).
      rewrite (yields_outcome _ _ _ _ (move_head_unknown robot_ok _ duration [] Hp)).
      by read_calls.
  - rewrite !(yields_trace _ _ _ _ (move_head_precise_yields _ _ r p y duration _)).
    rewrite !(yields_outcome _ _ _ _ (move_head_precise_yields _ _ r p y duration _)).
    by read_calls.
  - rewrite !(yields_trace _ _ _ _ (move_antennas_yields _ _ right_angle left_angle duration _)).
    rewrite !(yields_outcome _ _ _ _
                (move_antennas_yields _ _ right_angle left_angle duration _)).
    by read_calls.
  - destruct (expressions !! expression) as [antennas|] eqn:He.
    + rewrite !(yields_trace _ _ _ _ (antenna_expression_known _ _ _ _ He)).
      rewrite !(yields_outcome _ _ _ _ (antenna_expression_known _ _ _ _ He)).
      by read_calls.
    + rewrite !(antenna_expression_unknown _ _ _ He).
      rewrite !(yields_trace _ _ _ _ (antenna_expression_known _ "neutral" _ _ eq_refl)).
      rewrite !(yields_outcome _ _ _ _ (antenna_expression_known _ "neutral" _ _ eq_refl)).
      by read_calls.
  - rewrite !(yields_trace _ _ _ _ (nod_yes_yields _ times _)).
    rewrite !(yields_outcome _ _ _ _ (nod_yes_yields _ times _)). by read_calls.
  - rewrite !(yields_trace _ _ _ _ (shake_no_yields _ times _)).
    rewrite !(yields_outcome _ _ _ _ (shake_no_yields _ times _)). by read_calls.
  - rewrite !(yields_trace _ _ _ _ (tilt_head_yields _ _ direction angle _)).
    rewrite !(yields_outcome _ _ _ _ (tilt_head_yields _ _ direction angle _)).
    by read_calls.
  - rewrite !(yields_trace _ _ _ _ (look_at_camera_yields _ _)).
    rewrite !(yields_outcome _ _ _ _ (look_at_camera_yields _ _)). by read_calls.
  - rewrite !(yields_trace _ _ _ _ (wake_up_yields _ _)). split; [|done].
    cbv zeta. by destruct (robot _ _).
  - rewrite !(yields_trace _ _ _ _ (go_to_sleep_yields _ _)). split; [|done].
    cbv zeta. by destruct (robot _ _).
  - destruct (emotion_methods robot !! emotion) as [method|] eqn:He.
    + apply emotion_methods_known in He as [e ->].
      rewrite !(yields_trace _ _ _ _ (express_emotion_yields _ e _)).
      rewrite !(yields_outcome _ _ _ _ (express_emotion_yields _ e _)). by read_calls.
    + assert (He' : emotion_methods robot_ok !! emotion = None).
      { destruct (emotion_methods robot_ok !! emotion) as [method|] eqn:Hm; [|done].
        apply emotion_methods_known in Hm as [e ->].
        destruct (emotion_method_yields robot e) as (m & Hm & _). congruence. }
      rewrite (yields_trace _ _ _ _ (express_emotion_unknown robot _ h He)).
      rewrite (yields_trace _ _ _ _ (express_emotion_unknown robot_ok _ [] He')).
      rewrite (yields_outcome _ _ _ _ (express_emotion_unknown robot _ h He)).
      by rewrite (yields_outcome _ _ _ _ (express_emotion_unknown robot_ok _ [] He')).
  - rewrite !(yields_trace _ _ _ _ (do_dance_yields _ style _)).
    rewrite !(yields_outcome _ _ _ _ (do_dance_yields _ style _)). by read_calls.
  - rewrite !(yields_trace _ _ _ _ (reset_position_yields _ _)).
    rewrite !(yields_outcome _ _ _ _ (reset_position_yields _ _)). by read_calls.
Qed.

(** X9. The controller is open loop: what a facade call asks of the device
    depends neither on what the device answers nor on what happened before
    (a failed step is neither retried nor does it stop the steps after
    it), and except for [wake_up] and [go_to_sleep] the returned message is
    the same whether the device moved or failed. *)
Theorem facade_ignores_device (robot1 robot2 : Robot) (float_repr : Q -> string)
    (c : facade_call) (h1 h2 : list event) :
  device_calls (events (invoke robot1 float_repr c h1))
  = device_calls (events (invoke robot2 float_repr c h2))
  /\ (c <> DoWakeUp -> c <> DoGoToSleep ->
      outcome (invoke robot1 float_repr c h1) = outcome (invoke robot2 float_repr c h2)).
Proof.
  destruct (invoke_like_robot_ok robot1 float_repr c h1) as [Hc1 Ho1].
  destruct (invoke_like_robot_ok robot2 float_repr c h2) as [Hc2 Ho2].
  split; [congruence|]. intros Hw Hs. rewrite Ho1, Ho2; done.
Qed.

(** X9, witness: a nod on the device that works and on the device that
    is down. *)
Lemma facade_ignores_device_witness :
  outcome (invoke robot_down ratio_repr (NodYes 2) []) = Ok "Nodded yes 2 times"
  /\ length (device_calls (events (invoke robot_down ratio_repr (NodYes 2) []))) = 5%nat.
Proof.
  destruct (facade_ignores_device robot_down robot_ok ratio_repr (NodYes 2) [] [])
    as [Hcalls Hmsg].
  split; [rewrite Hmsg; [by vm_compute|discriminate..]|].
  rewrite Hcalls. by vm_compute.
Defined.

(** X1, witness. *)
Lemma clamp_monotone_witness :
  (num_val (clamp (PyInt (-30)) (PyInt 30) (PyInt 10))
   <= num_val (clamp (PyInt (-30)) (PyInt 30) (PyInt 50)))%Q.
Proof. apply clamp_monotone. by vm_compute. Defined.

(** X2, witness. *)
Lemma move_head_precise_in_range_witness :
  device_calls (events (move_head_precise robot_ok ratio_repr (PyInt 10) (PyInt (-5))
                          (PyInt 40) (PyFloat 0.5) []))
  = [GotoTarget (Some (create_head_pose (PyInt 10) (PyInt (-5)) (PyInt 40))) None
       (PyFloat 0.5)].
Proof.
  apply (move_head_precise_in_range robot_ok ratio_repr (PyInt 10) (PyInt (-5)) (PyInt 40)
           (PyFloat 0.5) []); by vm_compute.
Defined.

(** X6, witness. *)
Lemma move_antennas_in_range_witness :
  device_calls (events (move_antennas robot_ok ratio_repr (PyInt 45) (PyInt (-45))
                          (PyFloat 0.3) []))
  = [GotoTarget None (Some [np_radians (PyInt 45); np_radians (PyInt (-45))]) (PyFloat 0.3)].
Proof.
  apply (move_antennas_in_range robot_ok ratio_repr (PyInt 45) (PyInt (-45)) (PyFloat 0.3) []);
    by vm_compute.
Defined.

(** X7, witness. *)
Lemma move_head_documented_witness :
  outcome (move_head robot_ok "up" (PyFloat 0.5) []) = Ok "Moved head up"
  /\ warnings (events (move_head robot_ok "up" (PyFloat 0.5) [])) = [].
Proof.
  destruct (move_head_documented robot_ok "up" (PyFloat 0.5) []) as (Hmsg & Hwarn & _).
  - compute_done.
  - by split.
Defined.

(** * Settings *)

Lemma env_value_nonempty (key : string) : key <> "" -> Config.env_value (Some key) = Some key.
Proof. intros H. unfold Config.env_value. by apply String.eqb_neq in H as ->. Qed.

(** A key the file holds is read from the file; the API key only when the
    environment gives none. *)
Lemma load_settings_from_file (path : string) (env : option string)
    (d : gmap string Config.json) (k : string) (v : Config.json) :
  d !! k = Some v ->
  k <> "api_key" \/ Config.env_value env = None ->
  (Config.load_settings path env (Config.Holds d)).1 !! k = Some v.
Proof.
  intros Hk Hor. unfold Config.load_settings. cbn [fst].
  apply lookup_union_Some_raw. left.
  destruct (Config.env_value env) as [key|]; [|done].
  destruct Hor as [Hne|]; [|done].
  case_bool_decide; [|done]. by rewrite lookup_delete_ne.
Qed.

(** The environment's API key is the one loaded. *)
Lemma load_settings_api_key_env (path : string) (env : option string)
    (f : Config.file_state) (key : string) :
  Config.env_value env = Some key ->
  (Config.load_settings path env f).1 !! "api_key" = Some (Config.JStr key).
Proof.
  intros Henv. unfold Config.load_settings. rewrite Henv.
  destruct f as [|e|d]; cbn [fst]; try by rewrite lookup_insert_eq.
  apply lookup_union_Some_raw. right. split; [|by rewrite lookup_insert_eq].
  case_bool_decide as Hin; [by rewrite lookup_delete_eq|].
  by apply eq_None_not_Some.
Qed.

(** A key the file does not give has its default. *)
Lemma load_settings_default (path : string) (env : option string)
    (f : Config.file_state) (k : string) :
  (forall d, f = Config.Holds d -> d !! k = None) ->
  k <> "api_key" \/ Config.env_value env = None ->
  (Config.load_settings path env f).1 !! k = Config.DEFAULT_SETTINGS !! k.
Proof.
  intros Hfile Hor. unfold Config.load_settings.
  assert (Hbase : match Config.env_value env with
                  | Some key => <["api_key":=Config.JStr key]> Config.DEFAULT_SETTINGS
                  | None => Config.DEFAULT_SETTINGS
                  end !! k = Config.DEFAULT_SETTINGS !! k).
  { destruct (Config.env_value env) as [key|]; [|done].
    destruct Hor as [Hne|]; [|done]. by rewrite lookup_insert_ne. }
  destruct f as [|e|d]; cbn [fst]; [done..|].
  rewrite lookup_union_r; [done|].
  specialize (Hfile d eq_refl).
  destruct (Config.env_value env); [|done].
  case_bool_decide; [|done].
  destruct (decide (k = "api_key")) as [->|]; [by rewrite lookup_delete_eq|].
  by rewrite lookup_delete_ne.
Qed.

(** Every default key is present in what [load_settings] returns. *)
Lemma load_settings_has_defaults (path : string) (env : option string)
    (f : Config.file_state) (k : string) :
  is_Some (Config.DEFAULT_SETTINGS !! k) ->
  is_Some ((Config.load_settings path env f).1 !! k).
Proof.
  intros Hdef.
  destruct (decide (k = "api_key" /\ is_Some (Config.env_value env))) as [[-> [key Hk]]|Hno].
  { by rewrite (load_settings_api_key_env _ _ _ _ Hk). }
  assert (Hor : k <> "api_key" \/ Config.env_value env = None).
  { destruct (decide (k = "api_key")); [right|by left].
    destruct (Config.env_value env) eqn:E; [|done]. exfalso. apply Hno. by split. }
  destruct f as [|e|d].
  - by rewrite load_settings_default.
  - by rewrite load_settings_default.
  - destruct (d !! k) as [v|] eqn:Hd.
    + by rewrite (load_settings_from_file _ _ _ _ _ Hd Hor).
    + rewrite load_settings_default; [done| |done]. by intros ? [= <-].
Qed.



(** X12. The settings page never shows the API key: the answer to
    [GET /api/settings] has the eleven keys of the page and no "api_key";
    it only says whether a key is set, and it gives the other ten settings
    as [load_settings] returns them; the settings file is not touched. *)
Theorem settings_page_hides_api_key (path : string) (env : option string)
    (d : Config.disk) :
  let loaded := (Config.load_settings path env (Config.file d)).1 in
  exists data,
    WebServer.sent (WebServer.do_GET path env "/api/settings" d) = WebServer.SendJson data
    /\ WebServer.file_after (WebServer.do_GET path env "/api/settings" d) = Config.file d
    /\ data !! "api_key" = None
    /\ dom data
       = list_to_set
           [ "api_key_set"; "robot_audio"; "use_camera"; "holiday_cheer"; "mic_gain";
             "chunk_size"; "send_queue_size"; "recv_queue_size"; "camera_fps";
             "jpeg_quality"; "camera_width" ]
    /\ data !! "api_key_set"
       = Some (Config.JBool (Config.truthy (default Config.JNull (loaded !! "api_key"))))
    /\ forall k, k <> "api_key" -> is_Some (Config.DEFAULT_SETTINGS !! k) ->
                 data !! k = loaded !! k.
Proof.
  intros loaded. unfold WebServer.do_GET. rewrite decide_True by done.
  unfold WebServer._handle_get_settings, Config.get_settings_for_api.
  pose proof (load_settings_has_defaults path env (Config.file d)) as Hdef.
  fold loaded in Hdef.
  destruct (Config.load_settings path env (Config.file d)) as [settings out] eqn:Hload.
  cbn [fst] in loaded. subst loaded. cbn [WebServer.sent WebServer.file_after].
  eexists. split; [reflexivity|]. split; [done|]. split; [reflexivity|].
  split; [by rewrite dom_list_to_map_L|]. split; [reflexivity|].
  intros k Hk Hin. specialize (Hdef k Hin) as [v Hv]. rewrite Hv.
  apply elem_of_dom in Hin. unfold Config.DEFAULT_SETTINGS in Hin.
  rewrite dom_list_to_map_L in Hin. cbn [fmap list_fmap fst list_to_set] in Hin.
  repeat (apply elem_of_union in Hin as [Hin|Hin];
          [apply elem_of_singleton in Hin as ->;
           first [done | etrans; [reflexivity|]; by rewrite Hv]|]).
  by apply elem_of_empty in Hin.
Qed.

Lemma save_settings_written (settings : gmap string Config.json) (d : Config.disk) :
  Config.write_failure d = None ->
  Config.save_settings settings d
  = (true,
     Config.Holds (settings ∪ match Config.file d with
                              | Config.Holds contents => contents
                              | _ => ∅
                              end),
     []).
Proof. unfold Config.save_settings. intros ->. by destruct (Config.file d). Qed.

(** X13. Saving and loading round-trip: when the write succeeds,
    [save_settings] returns [True] and a following [load_settings] reads
    back every saved value (the API key only when the environment gives
    none) and, for every key that was not saved, the value it read before;
    it prints no warning, also when the file was unreadable before. *)
Theorem save_then_load (path : string) (env : option string)
    (settings : gmap string Config.json) (d : Config.disk) :
  Config.write_failure d = None ->
  exists f,
    Config.save_settings settings d = (true, f, [])
    /\ (Config.load_settings path env f).2 = []
    /\ (forall k v,
          settings !! k = Some v ->
          k <> "api_key" \/ Config.env_value env = None ->
          (Config.load_settings path env f).1 !! k = Some v)
    /\ (forall k,
          settings !! k = None ->
          (Config.load_settings path env f).1 !! k
          = (Config.load_settings path env (Config.file d)).1 !! k).
Proof.
  intros Hw. eexists. split; [by apply save_settings_written|].
  split; [done|]. split.
  - intros k v Hk Hor. apply load_settings_from_file; [|done].
    apply lookup_union_Some_raw. by left.
  - intros k Hk.
    set (old := match Config.file d with Config.Holds c => c | _ => ∅ end).
    assert (Hnew : (settings ∪ old) !! k = old !! k) by by rewrite lookup_union_r.
    destruct (decide (k = "api_key" /\ is_Some (Config.env_value env)))
      as [[-> [key Henv]]|Hno].
    { by rewrite !(load_settings_api_key_env _ _ _ _ Henv). }
    assert (Hor : k <> "api_key" \/ Config.env_value env = None).
    { destruct (decide (k = "api_key")); [right|by left].
      destruct (Config.env_value env) eqn:E; [|done]. exfalso. apply Hno. by split. }
    destruct (old !! k) as [v|] eqn:Hold.
    + rewrite (load_settings_from_file path env _ k v); [|by rewrite Hnew|done].
      subst old. destruct (Config.file d) as [|e|c]; [done..|].
      by rewrite (load_settings_from_file path env _ k v).
    + rewrite (load_settings_default path env (Config.Holds _) k); [| |done].
      2:{ intros ? [= <-]. by rewrite Hnew. }
      rewrite load_settings_default; [done| |done].
      intros c Hc. subst old. by rewrite Hc in Hold.
Qed.

(** X14. [POST /api/settings] merges: when the write succeeds the answer
    is [{"success": true}], every posted value that is not null is stored,
    and a setting that is posted as null or not posted at all keeps the
    value the file had (a null neither deletes nor overwrites). *)
Theorem post_settings_merges (new_settings : gmap string Config.json) (d : Config.disk) :
  Config.write_failure d = None ->
  let r := WebServer.do_POST "/api/settings" (WebServer.Dict new_settings) d in
  let old := match Config.file d with Config.Holds contents => contents | _ => ∅ end in
  WebServer.sent r = WebServer.SendJson {[ "success" := Config.JBool true ]}
  /\ exists stored,
       WebServer.file_after r = Config.Holds stored
       /\ (forall k v, new_settings !! k = Some v -> Config.is_none v = false ->
                       stored !! k = Some v)
       /\ (forall k, new_settings !! k = None \/ new_settings !! k = Some Config.JNull ->
                     stored !! k = old !! k).
Proof.
  intros Hw r old. subst r. unfold WebServer.do_POST. rewrite decide_True by done.
  unfold WebServer._handle_post_settings.
  rewrite (save_settings_written _ d Hw). cbn [WebServer.sent WebServer.file_after].
  split; [done|]. eexists. split; [reflexivity|]. split.
  - intros k v Hk Hv. apply lookup_union_Some_raw. left.
    by apply map_lookup_filter_Some.
  - intros k Hk. fold old. apply lookup_union_r.
    apply map_lookup_filter_None. destruct Hk as [Hk|Hk]; [by left|].
    right. intros v Hv. rewrite Hk in Hv. by injection Hv as <-.
Qed.

(** * The settings server *)

(** X15. The global settings server keeps its first port: once
    [start_settings_server(p1)] has been called, whether it started the
    server or raised, a later [start_settings_server(p2)] binds nothing
    but [p1] and can only return the URL of [p1]; and when the first call
    started the server, the second one returns the same URL and does
    nothing. *)
Theorem settings_server_keeps_first_port
    (bind_error : list WebServer.server_event -> Z -> option string) (p1 p2 : Z)
    (h : list WebServer.server_event) :
  let first := WebServer.start_settings_server bind_error p1 None h in
  let second := WebServer.start_settings_server bind_error p2 first.1.2 (h ++ first.2) in
  (forall p, p ∈ WebServer.bound_ports second.2 -> p = p1)
  /\ (forall url, second.1.1 = WebServer.Returns url ->
                  url = "http://0.0.0.0:" +:+ pretty p1)
  /\ (forall url, first.1.1 = WebServer.Returns url ->
                  second.1.1 = WebServer.Returns url /\ second.2 = []).
Proof.
  intros first second. subst first second.
  unfold WebServer.start_settings_server, WebServer.start.
  cbn [WebServer.server WebServer.port].
  assert (Hp1 : forall p, p ∈ [p1] -> p = p1).
  { intros p Hp. by apply list_elem_of_singleton in Hp. }
  case_bool_decide as Hport; [destruct (bind_error h p1) as [e1|]|];
    cbn [fst snd WebServer.server WebServer.port].
  - rewrite bool_decide_true by done.
    destruct (bind_error _ p1) as [e2|]; cbn [fst snd].
    + by split.
    + split; [done|]. split; [|done]. by intros url [= <-].
  - split; [|split].
    + intros p Hp. cbn in Hp. by apply elem_of_nil in Hp.
    + by intros url [= <-].
    + by intros url [= <-].
  - rewrite bool_decide_false by done. by split.
Qed.

(** X16. [stop_settings_server] forgets the server: after it the global
    instance is gone, so that the next [start_settings_server(p2)] binds
    [p2]; it shuts the server down when it was running and does nothing
    when the start had failed or no server was ever started. *)
Theorem stop_settings_server_resets
    (bind_error : list WebServer.server_event -> Z -> option string) (p1 p2 : Z)
    (h : list WebServer.server_event) :
  let first := WebServer.start_settings_server bind_error p1 None h in
  let stopped := WebServer.stop_settings_server first.1.2 in
  let again :=
    WebServer.start_settings_server bind_error p2 stopped.1 (h ++ first.2 ++ stopped.2) in
  stopped.1 = None
  /\ WebServer.bound_ports again.2 = [p2]
  /\ (forall url, first.1.1 = WebServer.Returns url ->
        stopped.2 = [WebServer.Shutdown; WebServer.LogInfo "Settings server stopped"])
  /\ (forall e, first.1.1 = WebServer.Raises e -> stopped.2 = [])
  /\ WebServer.stop_settings_server None = (None, []).
Proof.
  intros first stopped again. subst first stopped again.
  unfold WebServer.start_settings_server, WebServer.stop_settings_server,
    WebServer.start, WebServer.stop.
  cbn [WebServer.server WebServer.port].
  destruct (bool_decide (0 <= p1 <= 65535)); [destruct (bind_error h p1) as [e1|]|];
    cbn [fst snd WebServer.server WebServer.port];
    (split; [done|]; split; [|by split]);
    (destruct (bool_decide (0 <= p2 <= 65535)); [by destruct (bind_error _ p2)|done]).
Qed.

(** * Start-up *)

Lemma constructor_calls_app (l1 l2 : list Main.main_event) :
  Main.constructor_calls (l1 ++ l2) = Main.constructor_calls l1 ++ Main.constructor_calls l2.
Proof. apply omap_app. Qed.

(** The loop asks for [localhost_only=False] at every attempt. *)
Lemma try_backends_not_localhost
    (sdk : list Main.main_event -> Main.ReachyMiniCall -> option Main.ctor_exn)
    (backends : list string) (h : list Main.main_event) :
  Forall (fun cr => Main.localhost_only cr.1 = Some false)
    (Main.constructor_calls (Main.try_backends sdk backends h).2).
Proof.
  revert h. induction backends as [|backend rest IH]; intros h; cbn [Main.try_backends].
  - constructor.
  - destruct (sdk _ _) as [e|].
    + specialize (IH (h ++ [Main.LogInfo ("Trying " +:+ backend
                                           +:+ " backend for wireless media...");
                             Main.Construct
                               {| Main.media_backend := backend;
                                  Main.localhost_only := Some false |} (Some e);
                             match e with
                             | Main.ModuleNotFoundError msg =>
                                 Main.LogWarning (backend +:+ " backend not available: " +:+ msg)
                             | Main.OtherException msg =>
                                 Main.LogWarning (backend +:+ " backend failed: " +:+ msg)
                             end])).
      destruct (Main.try_backends sdk rest _) as [r evs']. cbn [snd] in *.
      rewrite constructor_calls_app. apply Forall_app. split; [|done].
      destruct e; by repeat constructor.
    + by repeat constructor.
Qed.

(** X17. With [--wireless], [create_robot] never restricts the robot to
    the local host: every [ReachyMini(...)] call it makes, in every branch
    and at every fallback, passes [localhost_only=False]. *)
Theorem create_robot_wireless_not_localhost
    (sdk : list Main.main_event -> Main.ReachyMiniCall -> option Main.ctor_exn)
    (args : Main.Args) (h : list Main.main_event) :
  Main.wireless args = true ->
  Forall (fun cr => Main.localhost_only cr.1 = Some false)
    (Main.constructor_calls (Main.create_robot sdk args h).2).
Proof.
  intros Hw. unfold Main.create_robot. rewrite Hw. cbn [negb].
  destruct (negb (Main.robot_audio args || negb (Main.no_camera args))).
  - unfold Main.construct. destruct (sdk _ _); by repeat constructor.
  - pose proof (try_backends_not_localhost sdk ["gstreamer"; "webrtc"; "default"] h) as Hloop.
    destruct (Main.try_backends sdk _ h) as [[call|] evs]; cbn [snd] in *; [done|].
    unfold Main.construct. destruct (sdk _ _);
      cbn [snd]; rewrite !constructor_calls_app; repeat (apply Forall_app; split);
      try done; by repeat constructor.
Qed.

(** X18. The choice of the wireless media backend: when media is needed
    and [--wireless] is given, [create_robot] tries "gstreamer", "webrtc",
    "default" and at last "no_media", in this order, and stops at the
    first constructor call that succeeds; the robot it returns is the one
    of that call; an exception propagates only from the last resort
    "no_media"; it logs one warning per backend that failed and two more
    before the last resort. *)
Theorem create_robot_first_working_backend
    (sdk : list Main.main_event -> Main.ReachyMiniCall -> option Main.ctor_exn)
    (args : Main.Args) (h : list Main.main_event) :
  Main.wireless args = true ->
  Main.robot_audio args || negb (Main.no_camera args) = true ->
  let run := Main.create_robot sdk args h in
  exists failed call r,
    Main.constructor_calls run.2 = failed ++ [(call, r)]
    /\ Forall (fun cr => is_Some cr.2) failed
    /\ (Main.media_backend <$> (fst <$> Main.constructor_calls run.2))
       `prefix_of` ["gstreamer"; "webrtc"; "default"; "no_media"]
    /\ (r = None -> run.1 = Main.Created call)
    /\ (forall e, r = Some e ->
                  run.1 = Main.Propagated e /\ Main.media_backend call = "no_media")
    /\ length (Main.logged_warnings run.2)
       = (length failed + if decide (Main.media_backend call = "no_media") then 2 else 0)%nat.
Proof.
  intros Hw Hmedia run. subst run. unfold Main.create_robot.
  rewrite Hw, Hmedia. cbn [negb Main.try_backends].
  destruct (sdk _ _) as [e1|]; cbn [fst snd].
  2:{ exists [], {| Main.media_backend := "gstreamer"; Main.localhost_only := Some false |}, None.
      split; [done|]. split; [done|]. split; [by eexists [_; _; _]|]. by repeat split. }
  destruct (sdk _ _) as [e2|]; cbn [fst snd].
  2:{ eexists [_], {| Main.media_backend := "webrtc"; Main.localhost_only := Some false |}, None.
      split; [by destruct e1|]. split; [by repeat constructor|].
      split; [destruct e1; by eexists [_; _]|]. split; [done|]. split; [done|].
      by destruct e1. }
  destruct (sdk _ _) as [e3|]; cbn [fst snd].
  2:{ eexists [_; _], {| Main.media_backend := "default"; Main.localhost_only := Some false |},
        None.
      split; [by destruct e1, e2|]. split; [by repeat constructor|].
      split; [destruct e1, e2; by eexists [_]|]. split; [done|]. split; [done|].
      by destruct e1, e2. }
  unfold Main.construct. destruct (sdk _ _) as [e4|]; cbn [fst snd].
  - eexists [_; _; _], {| Main.media_backend := "no_media"; Main.localhost_only := Some false |},
      (Some e4).
    split; [by destruct e1, e2, e3|]. split; [by repeat constructor|].
    split; [destruct e1, e2, e3; by eexists []|]. split; [done|].
    split; [by intros e [= <-]|]. by destruct e1, e2, e3.
  - eexists [_; _; _], {| Main.media_backend := "no_media"; Main.localhost_only := Some false |},
      None.
    split; [by destruct e1, e2, e3|]. split; [by repeat constructor|].
    split; [destruct e1, e2, e3; by eexists []|]. split; [done|].
    split; [done|]. by destruct e1, e2, e3.
Qed.

(** * Instances of the further properties *)



(** X13, witness: saving a frame rate next to the sample file. *)
Lemma save_then_load_witness :
  exists f,
    Config.save_settings {[ "camera_fps" := Config.JNum (PyFloat 2.0) ]}
      {| Config.file := sample_settings_file; Config.write_failure := None |}
    = (true, f, [])
    /\ (Config.load_settings "settings.json" None f).1 !! "camera_fps"
       = Some (Config.JNum (PyFloat 2.0))
    /\ (Config.load_settings "settings.json" None f).1 !! "mic_gain"
       = Some (Config.JNum (PyFloat 5.0)).
Proof.
  destruct (save_then_load "settings.json" None
              {[ "camera_fps" := Config.JNum (PyFloat 2.0) ]}
              {| Config.file := sample_settings_file; Config.write_failure := None |})
    as (f & Hsave & _ & Hnew & Hold); [done|].
  exists f. split; [exact Hsave|]. split.
  - apply Hnew; [by vm_compute|by left].
  - rewrite Hold; by vm_compute.
Defined.

(** X14, witness: a post that sets the gain and sends a null API key. *)
Lemma post_settings_merges_witness :
  exists stored,
    WebServer.file_after
      (WebServer.do_POST "/api/settings"
         (WebServer.Dict (list_to_map [ ("mic_gain", Config.JNum (PyFloat 2.5));
                                        ("api_key", Config.JNull) ]))
         {| Config.file := sample_settings_file; Config.write_failure := None |})
    = Config.Holds stored
    /\ stored !! "mic_gain" = Some (Config.JNum (PyFloat 2.5))
    /\ stored !! "api_key" = Some (Config.JStr "key-of-the-file").
Proof.
  destruct (post_settings_merges
              (list_to_map [ ("mic_gain", Config.JNum (PyFloat 2.5));
                             ("api_key", Config.JNull) ])
              {| Config.file := sample_settings_file; Config.write_failure := None |})
    as (_ & stored & Hfile & Hnew & Hkept); [done|].
  exists stored. split; [exact Hfile|]. split.
  - apply Hnew; by vm_compute.
  - rewrite Hkept; [by vm_compute|right; by vm_compute].
Defined.

(** X15, witness: port 8042 is taken, then port 9000 is asked for. *)
Lemma settings_server_keeps_first_port_witness :
  WebServer.bound_ports
    (WebServer.start_settings_server port_8042_busy 9000
       (WebServer.start_settings_server port_8042_busy 8042 None []).1.2
       (WebServer.start_settings_server port_8042_busy 8042 None []).2).2
  = [8042]
  /\ forall p,
       p ∈ WebServer.bound_ports
             (WebServer.start_settings_server port_8042_busy 9000
                (WebServer.start_settings_server port_8042_busy 8042 None []).1.2
                ([] ++ (WebServer.start_settings_server port_8042_busy 8042 None []).2)).2 ->
       p = 8042.
Proof.
  split; [by vm_compute|].
  exact (proj1 (settings_server_keeps_first_port port_8042_busy 8042 9000 [])).
Defined.

(** X16, witness: after a stop the new port is bound. *)
Lemma stop_settings_server_resets_witness :
  WebServer.bound_ports
    (WebServer.start_settings_server port_8042_busy 9000
       (WebServer.stop_settings_server
          (WebServer.start_settings_server port_8042_busy 8042 None []).1.2).1
       ([] ++ (WebServer.start_settings_server port_8042_busy 8042 None []).2
        ++ (WebServer.stop_settings_server
              (WebServer.start_settings_server port_8042_busy 8042 None []).1.2).2)).2
  = [9000].
Proof.
  exact (proj1 (proj2 (stop_settings_server_resets port_8042_busy 8042 9000 []))).
Defined.

(** X17, witness: wireless, with the camera. *)
Lemma create_robot_wireless_not_localhost_witness :
  Forall (fun cr => Main.localhost_only cr.1 = Some false)
    (Main.constructor_calls
       (Main.create_robot sdk_without_wireless_media
          {| Main.wireless := true; Main.no_camera := false; Main.robot_audio := false |}
          []).2).
Proof. by apply create_robot_wireless_not_localhost. Defined.

(** X18, witness: the third backend is the first that works. *)
Lemma create_robot_first_working_backend_witness :
  exists failed call r,
    Main.constructor_calls
      (Main.create_robot sdk_without_wireless_media
         {| Main.wireless := true; Main.no_camera := false; Main.robot_audio := false |}
         []).2
    = failed ++ [(call, r)]
    /\ (r = None ->
        (Main.create_robot sdk_without_wireless_media
           {| Main.wireless := true; Main.no_camera := false; Main.robot_audio := false |}
           []).1
        = Main.Created call).
Proof.
  destruct (create_robot_first_working_backend sdk_without_wireless_media
              {| Main.wireless := true; Main.no_camera := false; Main.robot_audio := false |}
              []) as (failed & call & r & Hcalls & _ & _ & Hok & _); [done..|].
  by exists failed, call, r.
Defined.

Example create_robot_falls_back_to_default :
  Main.create_robot sdk_without_wireless_media
    {| Main.wireless := true; Main.no_camera := false; Main.robot_audio := false |} []
  = (Main.Created {| Main.media_backend := "default"; Main.localhost_only := Some false |},
     [ Main.LogInfo "Trying gstreamer backend for wireless media...";
       Main.Construct {| Main.media_backend := "gstreamer"; Main.localhost_only := Some false |}
         (Some (Main.ModuleNotFoundError "No module named 'gi'"));
       Main.LogWarning "gstreamer backend not available: No module named 'gi'";
       Main.LogInfo "Trying webrtc backend for wireless media...";
       Main.Construct {| Main.media_backend := "webrtc"; Main.localhost_only := Some false |}
         (Some (Main.OtherException "signalling server unreachable"));
       Main.LogWarning "webrtc backend failed: signalling server unreachable";
       Main.LogInfo "Trying default backend for wireless media...";
       Main.Construct {| Main.media_backend := "default"; Main.localhost_only := Some false |}
         None;
       Main.LogInfo "Using default backend" ]).
Proof. by vm_compute. Qed.
